(** * Edit Session Controller (src/index.tsx)

    A shallow embedding of the image-editing front-end: the three
    module-level variables, the DOM elements the handlers touch, the four
    event handlers, [callGemini] and [displayError], followed by the
    properties of the upload -> request -> render lifecycle. *)

From Stdlib Require Import List String Ascii NArith Bool Lia.
Import ListNotations.

Set Implicit Arguments.

(** ** JavaScript strings

    A JavaScript string is a sequence of UTF-16 code units.  Literals of
    the source are written as Rocq strings (UTF-8 bytes in this file) and
    decoded by [js]. *)

Definition jsstring := list N.

Module Utf8.

Definition cont (b : N) : N := N.land b 63.

(** Decodes UTF-8 bytes into UTF-16 code units.  [fuel] bounds the number
    of bytes read. *)
Fixpoint decode (fuel : nat) (bs : list N) : jsstring :=
  match fuel with
  | O => []
  | S fuel' =>
      match bs with
      | [] => []
      | b :: rest =>
          if (b <? 128)%N then b :: decode fuel' rest
          else if (b <? 224)%N then
            match rest with
            | b2 :: rest' =>
                (N.shiftl (N.land b 31) 6 + cont b2)%N :: decode fuel' rest'
            | [] => [65533%N]
            end
          else if (b <? 240)%N then
            match rest with
            | b2 :: b3 :: rest' =>
                (N.shiftl (N.land b 15) 12 + N.shiftl (cont b2) 6 + cont b3)%N
                  :: decode fuel' rest'
            | _ => [65533%N]
            end
          else
            match rest with
            | b2 :: b3 :: b4 :: rest' =>
                let cp := (N.shiftl (N.land b 7) 18 + N.shiftl (cont b2) 12
                           + N.shiftl (cont b3) 6 + cont b4)%N in
                let v := (cp - 65536)%N in
                (55296 + N.shiftr v 10)%N :: (56320 + N.land v 1023)%N
                  :: decode fuel' rest'
            | _ => [65533%N]
            end
      end
  end.

Fixpoint bytes (s : string) : list N :=
  match s with
  | EmptyString => []
  | String c s' => N_of_ascii c :: bytes s'
  end.

End Utf8.

Definition js (s : string) : jsstring :=
  let bs := Utf8.bytes s in Utf8.decode (List.length bs) bs.

Arguments js s%_string : simpl never.

(** [String.prototype.split] with a one-character separator: the result
    always has at least one element. *)
Fixpoint split (sep : N) (s : jsstring) : list jsstring :=
  match s with
  | [] => [[]]
  | c :: s' =>
      if (c =? sep)%N then [] :: split sep s'
      else match split sep s' with
           | x :: xs => (c :: x) :: xs
           | [] => [[c]]
           end
  end.

(** WhiteSpace and LineTerminator code points of ECMAScript, the ones
    [String.prototype.trim] strips. *)
Definition is_whitespace (c : N) : bool :=
  ((c =? 9) || (c =? 10) || (c =? 11) || (c =? 12) || (c =? 13) || (c =? 32)
   || (c =? 160) || (c =? 5760) || ((8192 <=? c) && (c <=? 8202))
   || (c =? 8232) || (c =? 8233) || (c =? 8239) || (c =? 8287)
   || (c =? 12288) || (c =? 65279))%N.

Fixpoint trimStart (s : jsstring) : jsstring :=
  match s with
  | [] => []
  | c :: s' => if is_whitespace c then trimStart s' else s
  end.

Definition trimEnd (s : jsstring) : jsstring := rev (trimStart (rev s)).

Definition trim (s : jsstring) : jsstring := trimEnd (trimStart s).

(** The newline normalisation a textarea applies to its value: CR LF and
    a lone CR both read back as LF. *)
Fixpoint normalize_newlines (s : jsstring) : jsstring :=
  match s with
  | [] => []
  | c :: rest =>
      if (c =? 13)%N then
        10%N :: match rest with
                | d :: rest' =>
                    if (d =? 10)%N then normalize_newlines rest'
                    else normalize_newlines rest
                | [] => []
                end
      else c :: normalize_newlines rest
  end.

(** Truthiness of a [string | null] (or [string | undefined]) value. *)
Definition truthy (o : option jsstring) : bool :=
  match o with
  | Some (_ :: _) => true
  | _ => false
  end.

(** What a template literal substitutes for a [string | undefined]. *)
Definition template_subst (o : option jsstring) : jsstring :=
  match o with
  | Some s => s
  | None => js "undefined"
  end.

Definition comma : N := 44.
Definition colon : N := 58.
Definition semicolon : N := 59.

(** ** The generation API (types of @google/genai the code reads)

    Every field the handler reads is optional in the SDK's declarations,
    so each is an [option] here. *)

Record Blob := mkBlob {
  data : option jsstring;
  mimeType : option jsstring
}.

Record Part := mkPart {
  inlineData : option Blob;
  text : option jsstring
}.

Record Content := mkContent {
  parts : option (list Part)
}.

Record Candidate := mkCandidate {
  content : option Content
}.

Record GenerateContentResponse := mkResponse {
  candidates : option (list Candidate)
}.

Inductive Modality := IMAGE | TEXT.

Record GenerateContentParameters := mkParams {
  model : jsstring;
  contents : list Part;
  responseModalities : list Modality
}.

(** Values a [throw] or a rejected promise can carry. *)
Inductive Exn :=
| Error (message : jsstring)
| TypeError (message : jsstring)
| ApiError (message : jsstring).

(** The remote service and its client, as seen from the page: whether
    [new GoogleGenAI] throws, and what [generateContent] settles to. *)
Record Api := mkApi {
  construct : option Exn;
  generateContent : GenerateContentParameters -> Exn + GenerateContentResponse
}.

(** A user-chosen file, abstracted by what reading it as a data URL
    yields: the [result] handed to [onload], or nothing when the read
    fails (no [onerror] handler is installed). *)
Record File := mkFile {
  readAsDataURL_result : option jsstring
}.

(** ** Session state and the page *)

Record Session := mkSession {
  imageBase64 : option jsstring;
  imageMimeType : option jsstring;
  editedImageSrc : option jsstring
}.

(** Children of [resultContainer]. *)
Inductive Node :=
| LoaderNode
| MarkupNode (id : jsstring)
| ImgNode (src alt : jsstring)
| PNode (textContent className : jsstring).

Record Anchor := mkAnchor {
  href : jsstring;
  download : jsstring
}.

Record Dom := mkDom {
  originalImage_src : option jsstring;
  originalImage_display : jsstring;
  uploadPlaceholder_hidden : bool;
  promptInput_value : jsstring;
  editButton_disabled : bool;
  resultContainer : list Node;
  loader_hidden : bool;
  downloadButton_hidden : bool;
  body_appended : list Anchor
}.

(** What the page does to the outside, in order of occurrence. *)
Inductive Effect :=
| Alert (message : jsstring)
| ConsoleError (label : jsstring) (error : Exn)
| ApiRequest (params : GenerateContentParameters)
| AnchorClick (a : Anchor)
| Uncaught (error : Exn).

Record World := mkWorld {
  session : Session;
  dom : Dom;
  effects : list Effect
}.

(** ** Statements: state passing with exceptions

    A thrown exception keeps the mutations made before it. *)

Inductive Outcome (A : Type) :=
| Normal (a : A)
| Throw (e : Exn).

Arguments Normal {A} a.
Arguments Throw {A} e.

Definition M (A : Type) := World -> Outcome A * World.

Definition ret {A} (a : A) : M A := fun w => (Normal a, w).

Definition bind {A B} (m : M A) (k : A -> M B) : M B :=
  fun w =>
    match m w with
    | (Normal a, w') => k a w'
    | (Throw e, w') => (Throw e, w')
    end.

Definition throw {A} (e : Exn) : M A := fun w => (Throw e, w).

Definition try_catch {A} (body : M A) (handler : Exn -> M A) : M A :=
  fun w =>
    match body w with
    | (Normal a, w') => (Normal a, w')
    | (Throw e, w') => handler e w'
    end.

Definition try_finally {A} (body : M A) (finalizer : M unit) : M A :=
  fun w =>
    match body w with
    | (r, w') =>
        match finalizer w' with
        | (Normal _, w'') => (r, w'')
        | (Throw e, w'') => (Throw e, w'')
        end
    end.

Declare Scope js_scope.
Delimit Scope js_scope with js.
Notation "x <- c1 ;; c2" := (bind c1 (fun x => c2))
  (at level 61, c1 at next level, right associativity) : js_scope.
Notation "c1 ;; c2" := (bind c1 (fun _ => c2))
  (at level 61, right associativity) : js_scope.
Local Open Scope js_scope.

Definition get_session : M Session := fun w => (Normal (session w), w).
Definition get_dom : M Dom := fun w => (Normal (dom w), w).

Definition modify_session (f : Session -> Session) : M unit :=
  fun w => (Normal tt, mkWorld (f (session w)) (dom w) (effects w)).

Definition modify_dom (f : Dom -> Dom) : M unit :=
  fun w => (Normal tt, mkWorld (session w) (f (dom w)) (effects w)).

Definition emit (e : Effect) : M unit :=
  fun w => (Normal tt, mkWorld (session w) (dom w) (effects w ++ [e])).

(** A handler invoked by the event loop: an exception that escapes it is
    reported by the browser and the page goes on. *)
Definition run_task (m : M unit) (w : World) : World :=
  match m w with
  | (Normal _, w') => w'
  | (Throw e, w') => mkWorld (session w') (dom w') (effects w' ++ [Uncaught e])
  end.

(** *** Assignments *)

Definition set_imageBase64 (v : option jsstring) : M unit :=
  modify_session (fun s => mkSession v (imageMimeType s) (editedImageSrc s)).

Definition set_imageMimeType (v : option jsstring) : M unit :=
  modify_session (fun s => mkSession (imageBase64 s) v (editedImageSrc s)).

Definition set_editedImageSrc (v : option jsstring) : M unit :=
  modify_session (fun s => mkSession (imageBase64 s) (imageMimeType s) v).

Definition set_originalImage_src (v : jsstring) : M unit :=
  modify_dom (fun d =>
    mkDom (Some v) (originalImage_display d) (uploadPlaceholder_hidden d)
          (promptInput_value d) (editButton_disabled d) (resultContainer d)
          (loader_hidden d) (downloadButton_hidden d) (body_appended d)).

Definition set_originalImage_display (v : jsstring) : M unit :=
  modify_dom (fun d =>
    mkDom (originalImage_src d) v (uploadPlaceholder_hidden d)
          (promptInput_value d) (editButton_disabled d) (resultContainer d)
          (loader_hidden d) (downloadButton_hidden d) (body_appended d)).

Definition set_uploadPlaceholder_hidden (v : bool) : M unit :=
  modify_dom (fun d =>
    mkDom (originalImage_src d) (originalImage_display d) v
          (promptInput_value d) (editButton_disabled d) (resultContainer d)
          (loader_hidden d) (downloadButton_hidden d) (body_appended d)).

(** [promptInput.value = v].  [promptInput] is a textarea: its value reads
    back with newlines normalised, and [promptInput_value] is the value as
    it reads. *)
Definition set_promptInput_value (v : jsstring) : M unit :=
  modify_dom (fun d =>
    mkDom (originalImage_src d) (originalImage_display d)
          (uploadPlaceholder_hidden d) (normalize_newlines v)
          (editButton_disabled d)
          (resultContainer d) (loader_hidden d) (downloadButton_hidden d)
          (body_appended d)).

Definition set_editButton_disabled (v : bool) : M unit :=
  modify_dom (fun d =>
    mkDom (originalImage_src d) (originalImage_display d)
          (uploadPlaceholder_hidden d) (promptInput_value d) v
          (resultContainer d) (loader_hidden d) (downloadButton_hidden d)
          (body_appended d)).

Definition set_resultContainer (v : list Node) : M unit :=
  modify_dom (fun d =>
    mkDom (originalImage_src d) (originalImage_display d)
          (uploadPlaceholder_hidden d) (promptInput_value d)
          (editButton_disabled d) v (loader_hidden d)
          (downloadButton_hidden d) (body_appended d)).

Definition set_loader_hidden (v : bool) : M unit :=
  modify_dom (fun d =>
    mkDom (originalImage_src d) (originalImage_display d)
          (uploadPlaceholder_hidden d) (promptInput_value d)
          (editButton_disabled d) (resultContainer d) v
          (downloadButton_hidden d) (body_appended d)).

Definition set_downloadButton_hidden (v : bool) : M unit :=
  modify_dom (fun d =>
    mkDom (originalImage_src d) (originalImage_display d)
          (uploadPlaceholder_hidden d) (promptInput_value d)
          (editButton_disabled d) (resultContainer d) (loader_hidden d) v
          (body_appended d)).

Definition set_body_appended (v : list Anchor) : M unit :=
  modify_dom (fun d =>
    mkDom (originalImage_src d) (originalImage_display d)
          (uploadPlaceholder_hidden d) (promptInput_value d)
          (editButton_disabled d) (resultContainer d) (loader_hidden d)
          (downloadButton_hidden d) v).

(** *** DOM and browser primitives *)

(** [resultContainer.innerHTML = ''] *)
Definition resultContainer_clear : M unit := set_resultContainer [].

(** [resultContainer.appendChild(n)]; a node already in the container is
    moved to the end. *)
Definition node_eqb (a b : Node) : bool :=
  match a, b with
  | LoaderNode, LoaderNode => true
  | _, _ => false
  end.

Definition resultContainer_appendChild (n : Node) : M unit :=
  d <- get_dom ;;
  set_resultContainer
    (filter (fun c => negb (node_eqb c n)) (resultContainer d) ++ [n]).

Definition alert (message : jsstring) : M unit := emit (Alert message).

Definition console_error (label : jsstring) (error : Exn) : M unit :=
  emit (ConsoleError label error).

(** ** The handlers of src/index.tsx *)

(** The advisory texts of the page. *)
Definition msg_no_image : jsstring :=
  js "Por favor, sube una imagen primero.".
Definition msg_no_prompt : jsstring :=
  js "Por favor, ingresa una instrucción de edición.".
Definition msg_no_result : jsstring :=
  js "No hay imagen editada para descargar.".
Definition msg_no_response : jsstring :=
  js "No hubo respuesta del modelo. Por favor, inténtalo de nuevo.".
Definition msg_no_content : jsstring :=
  js "El modelo no devolvió ningún contenido editable.".
Definition msg_generic_error : jsstring :=
  js "Ocurrió un error. Por favor, revisa la consola para más detalles.".
Definition msg_read_failed : jsstring :=
  js "No se pudo leer el archivo seleccionado. Por favor, intenta con otra imagen.".

Definition default_prompt : jsstring :=
  js "modifica la imagen y dale un aspecto profesional, donde los colores destaquen y resalten lo mejor de la fotografia".

(** The page as loaded: the three variables are [null] and the prompt is
    pre-seeded; everything else comes from the markup [d]. *)
Definition page_load (d : Dom) : World :=
  run_task (set_promptInput_value default_prompt)
           (mkWorld (mkSession None None None) d []).

(** [promptExamples] change listener; [selectedValue] is the value of the
    chosen option. *)
Definition promptExamples_change (selectedValue : jsstring) : M unit :=
  if truthy (Some selectedValue) then set_promptInput_value selectedValue
  else ret tt.

(** The callback assigned to [reader.onload]. *)
Definition reader_onload (result : jsstring) : M unit :=
  let dataUrlParts := split comma result in
  if negb (Nat.eqb (List.length dataUrlParts) 2) then
    throw (Error (js "Invalid data URL format"))
  else
    mimeTypePart <-
      match nth_error (split colon (nth 0 dataUrlParts [])) 1 with
      | Some s => ret (nth 0 (split semicolon s) [])
      | None => throw (TypeError (js "Cannot read properties of undefined (reading 'split')"))
      end ;;
    set_imageBase64 (Some (nth 1 dataUrlParts [])) ;;
    set_imageMimeType (Some mimeTypePart) ;;
    set_originalImage_src result ;;
    set_originalImage_display (js "block") ;;
    set_uploadPlaceholder_hidden true ;;
    set_editButton_disabled false.

(** A [FileReader] object, with the callback assigned to its [onload]. *)
Record FileReader := mkFileReader {
  onload : jsstring -> M unit
}.

(** [reader.readAsDataURL(file)] only starts the read and returns; the
    browser calls [reader.onload] later, in a task of its own. *)
Definition readAsDataURL (reader : FileReader) (file : File) : M unit := ret tt.

(** [imageUpload] change listener, up to its return.  The value returned
    is the read it has started, if any. *)
Definition imageUpload_change (file : option File)
  : M (option (FileReader * File)) :=
  match file with
  | None => ret None
  | Some f =>
      try_catch
        (let reader := mkFileReader reader_onload in
         readAsDataURL reader f ;;
         ret (Some (reader, f)))
        (fun error =>
           console_error (js "Error reading file:") error ;;
           alert msg_read_failed ;;
           ret None)
  end.

(** The read completes: [onload] is called with the data URL, or the read
    fails and nothing is called (no error callback is installed). *)
Definition reader_settle (reader : FileReader) (f : File) : M unit :=
  match readAsDataURL_result f with
  | Some result => onload reader result
  | None => ret tt
  end.

(** An image selection from the change event to the end of the read: the
    listener runs as one task, the callback of the read it started as
    another. *)
Definition select_image (file : option File) (w : World) : World :=
  match imageUpload_change file w with
  | (Normal (Some (reader, f)), w') => run_task (reader_settle reader f) w'
  | (Normal None, w') => w'
  | (Throw e, w') => mkWorld (session w') (dom w') (effects w' ++ [Uncaught e])
  end.

Definition displayError (message : jsstring) : M unit :=
  resultContainer_clear ;;
  resultContainer_appendChild (PNode message (js "error")) ;;
  set_downloadButton_hidden true.

(** The data URL built for an inline-binary part. *)
Definition imageUrl_of (b : Blob) : jsstring :=
  js "data:" ++ template_subst (mimeType b) ++ js ";base64,"
    ++ template_subst (data b).

(** One iteration of the loop over the parts; returns [foundContent]. *)
Definition render_part (prompt : jsstring) (part : Part) (foundContent : bool)
  : M bool :=
  match inlineData part with
  | Some b =>
      let imageUrl := imageUrl_of b in
      resultContainer_appendChild (ImgNode imageUrl prompt) ;;
      set_editedImageSrc (Some imageUrl) ;;
      set_downloadButton_hidden false ;;
      ret true
  | None =>
      match text part with
      | Some ((_ :: _) as t) =>
          resultContainer_appendChild (PNode t (js "model-text")) ;;
          ret true
      | _ => ret foundContent
      end
  end.

Fixpoint render_parts (prompt : jsstring) (ps : list Part) (foundContent : bool)
  : M bool :=
  match ps with
  | [] => ret foundContent
  | part :: rest =>
      found <- render_part prompt part foundContent ;;
      render_parts prompt rest found
  end.

Definition request_of (prompt base64Data mimeType : jsstring)
  : GenerateContentParameters :=
  mkParams (js "gemini-2.5-flash-image")
           [mkPart (Some (mkBlob (Some base64Data) (Some mimeType))) None;
            mkPart None (Some prompt)]
           [IMAGE; TEXT].

(** [new GoogleGenAI(...)] *)
Definition new_GoogleGenAI (api : Api) : M unit :=
  match construct api with
  | Some e => throw e
  | None => ret tt
  end.

(** A call of [callGemini] suspended at its [await]: the value of its
    [prompt] parameter and what the promise it waits for settles to. *)
Record Suspended := mkSuspended {
  awaited_prompt : jsstring;
  awaited_reply : Exn + GenerateContentResponse
}.

(** [ai.models.generateContent(params)]: the request goes out and a
    promise comes back; nothing is known to the page yet. *)
Definition ai_generateContent (api : Api) (params : GenerateContentParameters)
  : M (Exn + GenerateContentResponse) :=
  emit (ApiRequest params) ;;
  ret (generateContent api params).

(** What [await] gives once the promise has settled. *)
Definition await (reply : Exn + GenerateContentResponse)
  : M GenerateContentResponse :=
  match reply with
  | inl e => throw e
  | inr response => ret response
  end.

(** [response.candidates[0].content.parts], as the loop header reads it. *)
Definition parts_of_first (c : Candidate) : M (list Part) :=
  match content c with
  | None => throw (TypeError (js "Cannot read properties of undefined (reading 'parts')"))
  | Some ct =>
      match parts ct with
      | None => throw (TypeError (js "undefined is not iterable"))
      | Some ps => ret ps
      end
  end.

(** Lines 107-112: the loading state. *)
Definition callGemini_loading : M unit :=
  resultContainer_clear ;;
  resultContainer_appendChild LoaderNode ;;
  set_loader_hidden false ;;
  set_editButton_disabled true ;;
  set_downloadButton_hidden true ;;
  set_editedImageSrc None.

(** Lines 137-168: the [try] block after the [await]. *)
Definition callGemini_handle (prompt : jsstring)
           (response : GenerateContentResponse) : M unit :=
  resultContainer_clear ;;
  match candidates response with
  | Some (first :: _) =>
      ps <- parts_of_first first ;;
      foundContent <- render_parts prompt ps false ;;
      if negb foundContent then
        displayError msg_no_content
      else ret tt
  | _ =>
      displayError msg_no_response
  end.

Definition callGemini_catch (error : Exn) : M unit :=
  console_error (js "Error calling Gemini API:") error ;;
  displayError msg_generic_error.

Definition callGemini_finally : M unit :=
  set_loader_hidden true ;;
  set_editButton_disabled false.

(** [callGemini] from its call to its [await] (lines 105-119).  When the
    request has gone out the call is suspended inside the [try], so
    neither [catch] nor [finally] has run; when the constructor throws,
    both run at once and nothing is left suspended. *)
Definition callGemini_until_await
           (api : Api) (prompt base64Data mimeType : jsstring)
  : M (option Suspended) :=
  callGemini_loading ;;
  started <- try_catch
               (new_GoogleGenAI api ;;
                promise <- ai_generateContent api
                             (request_of prompt base64Data mimeType) ;;
                ret (Some (mkSuspended prompt promise)))
               (fun error => callGemini_catch error ;; ret None) ;;
  match started with
  | Some s => ret (Some s)
  | None => callGemini_finally ;; ret None
  end.

(** [callGemini] from its [await] to its end (lines 119-176), run when
    the reply arrives, in whatever state the page is by then. *)
Definition callGemini_from_await (s : Suspended) : M unit :=
  try_finally
    (try_catch
       (response <- await (awaited_reply s) ;;
        callGemini_handle (awaited_prompt s) response)
       callGemini_catch)
    callGemini_finally.

Definition resume (started : option Suspended) : M unit :=
  match started with
  | Some s => callGemini_from_await s
  | None => ret tt
  end.

(** [callGemini] when the reply is the next thing that happens to the
    page. *)
Definition callGemini (api : Api) (prompt base64Data mimeType : jsstring)
  : M unit :=
  started <- callGemini_until_await api prompt base64Data mimeType ;;
  resume started.

(** [editButton] click listener, up to the [await] inside [callGemini]. *)
Definition editButton_click_until_await (api : Api) : M (option Suspended) :=
  s <- get_session ;;
  match imageBase64 s, imageMimeType s with
  | Some ((_ :: _) as base64Data), Some ((_ :: _) as mimeType) =>
      d <- get_dom ;;
      let prompt := promptInput_value d in
      if negb (truthy (Some (trim prompt))) then
        alert msg_no_prompt ;; ret None
      else callGemini_until_await api prompt base64Data mimeType
  | _, _ => alert msg_no_image ;; ret None
  end.

(** The listener when the reply is the next thing that happens to the
    page. *)
Definition editButton_click (api : Api) : M unit :=
  started <- editButton_click_until_await api ;;
  resume started.

(** [downloadButton] click listener.  The link is the last child appended
    to the body when it is removed again. *)
Definition downloadButton_click : M unit :=
  s <- get_session ;;
  match editedImageSrc s with
  | Some ((_ :: _) as url) =>
      let a := mkAnchor url (js "imagen-editada.png") in
      d <- get_dom ;;
      set_body_appended (body_appended d ++ [a]) ;;
      emit (AnchorClick a) ;;
      d' <- get_dom ;;
      set_body_appended (removelast (body_appended d'))
  | _ => alert msg_no_result
  end.

(** ** Sessions in which nothing overlaps

    Each user action is followed to its end before the next one: a
    selection to the end of the file read, a submission to the end of
    [callGemini], the reply being the next thing that happens. *)

Inductive Action :=
| SelectImage (file : option File)
| TypePrompt (value : jsstring)
| ChooseExample (selectedValue : jsstring)
| ClickEdit (api : Api)
| ClickDownload.

Definition perform (a : Action) (w : World) : World :=
  match a with
  | SelectImage file => select_image file w
  | TypePrompt value => run_task (set_promptInput_value value) w
  | ChooseExample selectedValue => run_task (promptExamples_change selectedValue) w
  | ClickEdit api => run_task (editButton_click api) w
  | ClickDownload => run_task downloadButton_click w
  end.

(** ** The page as the event loop runs it

    A file read and a request take time: the page keeps the reads that
    have been started and the calls of [callGemini] that wait for their
    reply, and any other event may come before they settle.  Replies may
    arrive in any order. *)

Record Page := mkPage {
  world : World;
  reading : list (FileReader * File);
  awaiting : list Suspended
}.

Inductive Event :=
| FileChosen (file : option File)
| ReadSettles (i : nat)
| PromptTyped (value : jsstring)
| ExampleChosen (selectedValue : jsstring)
| EditClicked (api : Api)
| ReplyArrives (i : nat)
| DownloadClicked.

Definition remove_nth {A : Type} (i : nat) (l : list A) : list A :=
  firstn i l ++ skipn (S i) l.

Definition uncaught (e : Exn) (w : World) : World :=
  mkWorld (session w) (dom w) (effects w ++ [Uncaught e]).

Definition step (ev : Event) (p : Page) : Page :=
  match ev with
  | FileChosen file =>
      match imageUpload_change file (world p) with
      | (Normal (Some started), w') =>
          mkPage w' (reading p ++ [started]) (awaiting p)
      | (Normal None, w') => mkPage w' (reading p) (awaiting p)
      | (Throw e, w') => mkPage (uncaught e w') (reading p) (awaiting p)
      end
  | ReadSettles i =>
      match nth_error (reading p) i with
      | Some (reader, f) =>
          mkPage (run_task (reader_settle reader f) (world p))
                 (remove_nth i (reading p)) (awaiting p)
      | None => p
      end
  | PromptTyped value =>
      mkPage (run_task (set_promptInput_value value) (world p))
             (reading p) (awaiting p)
  | ExampleChosen selectedValue =>
      mkPage (run_task (promptExamples_change selectedValue) (world p))
             (reading p) (awaiting p)
  | EditClicked api =>
      match editButton_click_until_await api (world p) with
      | (Normal (Some s), w') => mkPage w' (reading p) (awaiting p ++ [s])
      | (Normal None, w') => mkPage w' (reading p) (awaiting p)
      | (Throw e, w') => mkPage (uncaught e w') (reading p) (awaiting p)
      end
  | ReplyArrives i =>
      match nth_error (awaiting p) i with
      | Some s =>
          mkPage (run_task (callGemini_from_await s) (world p))
                 (reading p) (remove_nth i (awaiting p))
      | None => p
      end
  | DownloadClicked =>
      mkPage (run_task downloadButton_click (world p)) (reading p) (awaiting p)
  end.

(** A sequence of events, the first of the list first. *)
Definition run_events (evs : list Event) (p : Page) : Page :=
  fold_left (fun p ev => step ev p) evs p.

Definition start (d : Dom) : Page := mkPage (page_load d) [] [].

Inductive reachable_page : Page -> Prop :=
| reachable_page_start : forall d, reachable_page (start d)
| reachable_page_step : forall ev p,
    reachable_page p -> reachable_page (step ev p).

(** The states the session variables and the page can be in, between any
    two events. *)
Definition reachable (w : World) : Prop :=
  exists p, reachable_page p /\ world p = w.

(** ** Vocabulary of the properties *)

(** A part the loop renders: inline binary data, or a non-empty text. *)
Definition is_image_part (p : Part) : bool :=
  match inlineData p with Some _ => true | None => false end.

Definition is_text_part (p : Part) : bool := truthy (text p).

Definition image_blobs (ps : list Part) : list Blob :=
  flat_map (fun p => match inlineData p with Some b => [b] | None => [] end) ps.

Definition last_image_url (ps : list Part) : option jsstring :=
  match rev (image_blobs ps) with
  | b :: _ => Some (imageUrl_of b)
  | [] => None
  end.

(** The nodes one part contributes to the result container. *)
Definition nodes_of_part (prompt : jsstring) (p : Part) : list Node :=
  match inlineData p with
  | Some b => [ImgNode (imageUrl_of b) prompt]
  | None =>
      match text p with
      | Some ((_ :: _) as t) => [PNode t (js "model-text")]
      | _ => []
      end
  end.

(** The image a response makes downloadable: the last inline-binary part
    of the first candidate, when the response has one. *)
Definition response_image_url (r : GenerateContentResponse) : option jsstring :=
  match candidates r with
  | Some (c :: _) =>
      match content c with
      | Some ct =>
          match parts ct with
          | Some ps => last_image_url ps
          | None => None
          end
      | None => None
      end
  | _ => None
  end.

(** The same, for a whole exchange with the service. *)
Definition exchange_image_url (api : Api) (params : GenerateContentParameters)
  : option jsstring :=
  match construct api with
  | Some _ => None
  | None =>
      match generateContent api params with
      | inl _ => None
      | inr r => response_image_url r
      end
  end.

Definition both_or_neither (s : Session) : Prop :=
  (imageBase64 s = None /\ imageMimeType s = None)
  \/ (exists b m, imageBase64 s = Some b /\ imageMimeType s = Some m).

Definition alerts (es : list Effect) : list jsstring :=
  flat_map (fun e => match e with Alert m => [m] | _ => [] end) es.

Definition api_requests (es : list Effect) : list GenerateContentParameters :=
  flat_map (fun e => match e with ApiRequest p => [p] | _ => [] end) es.

(** The two pieces [reader.onload] cuts out of a data URL. *)
Definition payload_of (result : jsstring) : jsstring :=
  nth 1 (split comma result) [].

Definition mime_of (result : jsstring) : option jsstring :=
  match nth_error (split colon (nth 0 (split comma result) [])) 1 with
  | Some s => Some (nth 0 (split semicolon s) [])
  | None => None
  end.

(** A data URL is well formed for the page when it splits at commas into
    exactly a prefix and a payload. *)
Definition splits_in_two (result : jsstring) : bool :=
  Nat.eqb (List.length (split comma result)) 2.

(** The world once [onload] has stored an image. *)
Definition image_loaded (result payload mime : jsstring) (w : World) : World :=
  mkWorld
    (mkSession (Some payload) (Some mime) (editedImageSrc (session w)))
    (mkDom (Some result) (js "block") true (promptInput_value (dom w)) false
           (resultContainer (dom w)) (loader_hidden (dom w))
           (downloadButton_hidden (dom w)) (body_appended (dom w)))
    (effects w).

(** ** Sample sessions *)

Definition blank_page : Dom :=
  mkDom None [] false [] true [MarkupNode (js "result-placeholder")] true true [].

Definition photo : File := mkFile (Some (js "data:image/jpeg;base64,/9j/4AAQ")).

(** What Chromium's reader yields for an empty file. *)
Definition empty_file : File := mkFile (Some (js "data:")).

Definition api_returning (r : GenerateContentResponse) : Api :=
  mkApi None (fun _ => inr r).

Definition png (payload : string) : Blob :=
  mkBlob (Some (js payload)) (Some (js "image/png")).

Definition two_images : list Part :=
  [mkPart (Some (png "AAAA")) None;
   mkPart None (Some (js "hola"));
   mkPart (Some (png "BBBB")) (Some (js "pie de foto"))].

Definition reply_with (ps : list Part) : GenerateContentResponse :=
  mkResponse (Some [mkCandidate (Some (mkContent (Some ps)))]).

Definition session_start : World := page_load blank_page.

Definition session_with_photo : World :=
  perform (SelectImage (Some photo)) session_start.

Definition session_with_result : World :=
  perform (ClickEdit (api_returning (reply_with two_images))) session_with_photo.

(** ** Further vocabulary: data URLs, whole sessions *)

(** [s] holds no occurrence of the code unit [sep]. *)
Definition free_of (sep : N) (s : jsstring) : bool :=
  forallb (fun c => negb (c =? sep)%N) s.

(** [s] holds none of the three separators [onload] splits at. *)
Definition plain (s : jsstring) : bool :=
  free_of comma s && free_of colon s && free_of semicolon s.

(** The data URL a reader yields for content [payload] (as base64) of
    type [mime]. *)
Definition data_url (mime payload : jsstring) : jsstring :=
  js "data:" ++ mime ++ js ";base64," ++ payload.

(** The part list the loop runs over, when the response has one. *)
Definition first_parts (r : GenerateContentResponse) : option (list Part) :=
  match candidates r with
  | Some (c :: _) =>
      match content c with
      | Some ct => parts ct
      | None => None
      end
  | _ => None
  end.

(** The state in which a click on the edit control goes through to
    [callGemini]: a non-empty payload and MIME type are stored and the
    prompt holds a code unit that is not whitespace. *)
Definition submittable (w : World) (base64Data mimeType : jsstring) : Prop :=
  imageBase64 (session w) = Some base64Data
  /\ truthy (Some base64Data) = true
  /\ imageMimeType (session w) = Some mimeType
  /\ truthy (Some mimeType) = true
  /\ forallb is_whitespace (promptInput_value (dom w)) = false.

(** A sequence of user actions, the first of the list first. *)
Definition run_actions (acts : list Action) (w : World) : World :=
  fold_left (fun w a => perform a w) acts w.

(** An advisory is all the result panel shows and the download control
    is hidden (the stored result is not part of this). *)
Definition advisory_panel (message : jsstring) (w' : World) : Prop :=
  resultContainer (dom w') = [PNode message (js "error")]
  /\ downloadButton_hidden (dom w') = true.

(** Every read in progress belongs to a reader made by the change
    listener. *)
Definition readers_ok (p : Page) : Prop :=
  Forall (fun started => fst started = mkFileReader reader_onload) (reading p).

(** What one event can do to the source image, the stored result and the
    download control. *)
Definition source_kept_or_set (w w' : World) : Prop :=
  (imageBase64 (session w') = imageBase64 (session w)
   /\ imageMimeType (session w') = imageMimeType (session w))
  \/ (exists b m, imageBase64 (session w') = Some b
                   /\ imageMimeType (session w') = Some m).

Definition result_moves (w w' : World) : Prop :=
  (editedImageSrc (session w') = editedImageSrc (session w)
   /\ (downloadButton_hidden (dom w') = downloadButton_hidden (dom w)
       \/ downloadButton_hidden (dom w') = true))
  \/ (editedImageSrc (session w') = None
      /\ downloadButton_hidden (dom w') = true)
  \/ (exists b, editedImageSrc (session w') = Some (imageUrl_of b)
                /\ downloadButton_hidden (dom w') = false).

(** The download control is on show only with a result to save. *)
Definition download_needs_result (w : World) : Prop :=
  downloadButton_hidden (dom w) = false ->
  exists b, editedImageSrc (session w) = Some (imageUrl_of b).

(** Services that fail: one that rejects every request, one whose client
    cannot even be built. *)
Definition api_rejecting (e : Exn) : Api := mkApi None (fun _ => inl e).

Definition api_unbuildable (e : Exn) : Api :=
  mkApi (Some e) (fun _ => inl e).

(** Two submissions that overlap.  The first request is still out when
    another image is read, which enables the edit control again; the
    second click sends a second request; the first reply carries images,
    the second is a rejection. *)
Definition overlapped_edits : list Event :=
  [FileChosen (Some photo); ReadSettles 0;
   EditClicked (api_returning (reply_with two_images));
   FileChosen (Some photo); ReadSettles 0;
   EditClicked (api_rejecting (ApiError (js "503")));
   ReplyArrives 0;
   ReplyArrives 0].

(** What every exit of [callGemini] shares: the source image and the
    prompt are untouched, and the [finally] block has run. *)
Definition settled (w w' : World) : Prop :=
  loader_hidden (dom w') = true
  /\ editButton_disabled (dom w') = false
  /\ imageBase64 (session w') = imageBase64 (session w)
  /\ imageMimeType (session w') = imageMimeType (session w)
  /\ promptInput_value (dom w') = promptInput_value (dom w).

(** An advisory panel is all the result container shows, nothing is
    stored and the download control is hidden. *)
Definition advisory_shown (message : jsstring) (w' : World) : Prop :=
  resultContainer (dom w') = [PNode message (js "error")]
  /\ downloadButton_hidden (dom w') = true
  /\ editedImageSrc (session w') = None.

(** ** Auxiliary facts *)

Ltac unfold_js :=
  cbv [session dom effects imageBase64 imageMimeType editedImageSrc
       originalImage_src originalImage_display uploadPlaceholder_hidden
       promptInput_value editButton_disabled resultContainer loader_hidden
       downloadButton_hidden body_appended awaited_prompt awaited_reply
       bind ret throw try_catch try_finally get_session get_dom modify_session
       modify_dom emit run_task alert console_error
       set_imageBase64 set_imageMimeType set_editedImageSrc
       set_originalImage_src set_originalImage_display
       set_uploadPlaceholder_hidden set_promptInput_value
       set_editButton_disabled set_resultContainer set_loader_hidden
       set_downloadButton_hidden set_body_appended
       resultContainer_clear resultContainer_appendChild displayError].

Ltac unfold_call :=
  unfold callGemini, callGemini_until_await, resume, callGemini_from_await,
    callGemini_handle, await, callGemini_loading, callGemini_catch,
    callGemini_finally, new_GoogleGenAI, ai_generateContent, parts_of_first.

Ltac destruct_world w :=
  let sb := fresh "img" in
  let sm := fresh "mime" in
  let se := fresh "edited" in
  destruct w as [[sb sm se] [? ? ? ? ? ? ? ? ?] ?];
  cbn [session dom effects imageBase64 imageMimeType editedImageSrc
       originalImage_src originalImage_display uploadPlaceholder_hidden
       promptInput_value editButton_disabled resultContainer loader_hidden
       downloadButton_hidden body_appended] in *.

Ltac split_all := repeat match goal with |- _ /\ _ => split end.

Lemma filter_keep_all (A : Type) (f : A -> bool) (l : list A) :
  (forall x, f x = true) -> filter f l = l.
Proof.
  intros Hf. induction l as [|x l IH]; simpl; [reflexivity|].
  rewrite Hf, IH. reflexivity.
Qed.

Lemma append_fresh_img (l : list Node) (s a : jsstring) :
  filter (fun c => negb (node_eqb c (ImgNode s a))) l = l.
Proof. apply filter_keep_all. intros []; reflexivity. Qed.

Lemma append_fresh_p (l : list Node) (t c : jsstring) :
  filter (fun x => negb (node_eqb x (PNode t c))) l = l.
Proof. apply filter_keep_all. intros []; reflexivity. Qed.

(** The world after one loop iteration, field by field. *)
Lemma render_part_run (prompt : jsstring) (p : Part) (found : bool) (w : World) :
  exists w',
    render_part prompt p found w
      = (Normal (found || is_image_part p || is_text_part p), w')
    /\ imageBase64 (session w') = imageBase64 (session w)
    /\ imageMimeType (session w') = imageMimeType (session w)
    /\ editedImageSrc (session w')
       = match inlineData p with
         | Some b => Some (imageUrl_of b)
         | None => editedImageSrc (session w)
         end
    /\ downloadButton_hidden (dom w')
       = (if is_image_part p then false else downloadButton_hidden (dom w))
    /\ resultContainer (dom w') = resultContainer (dom w) ++ nodes_of_part prompt p
    /\ loader_hidden (dom w') = loader_hidden (dom w)
    /\ editButton_disabled (dom w') = editButton_disabled (dom w)
    /\ promptInput_value (dom w') = promptInput_value (dom w)
    /\ effects w' = effects w.
Proof.
  destruct_world w.
  unfold render_part, is_image_part, is_text_part, nodes_of_part.
  destruct (inlineData p) as [b|].
  - eexists. split.
    + unfold_js. simpl. rewrite orb_true_r. reflexivity.
    + simpl. rewrite append_fresh_img. split_all; reflexivity.
  - destruct (text p) as [[|c t]|]; simpl.
    + eexists. split.
      * unfold_js. rewrite !orb_false_r. reflexivity.
      * rewrite app_nil_r. split_all; reflexivity.
    + eexists. split.
      * unfold_js. simpl. rewrite orb_true_r. reflexivity.
      * simpl. rewrite append_fresh_p. split_all; reflexivity.
    + eexists. split.
      * unfold_js. rewrite !orb_false_r. reflexivity.
      * rewrite app_nil_r. split_all; reflexivity.
Qed.

Lemma last_image_url_cons (p : Part) (ps : list Part) :
  last_image_url (p :: ps)
  = match last_image_url ps with
    | Some u => Some u
    | None =>
        match inlineData p with
        | Some b => Some (imageUrl_of b)
        | None => None
        end
    end.
Proof.
  unfold last_image_url, image_blobs. simpl.
  destruct (inlineData p) as [b|]; simpl.
  - destruct (rev _); reflexivity.
  - destruct (rev _); reflexivity.
Qed.

Lemma has_image_last (ps : list Part) :
  existsb is_image_part ps
  = match last_image_url ps with Some _ => true | None => false end.
Proof.
  induction ps as [|p rest IH]; [reflexivity|].
  rewrite last_image_url_cons. simpl. rewrite IH. unfold is_image_part.
  destruct (last_image_url rest), (inlineData p); reflexivity.
Qed.

(** The world after the whole loop. *)
Lemma render_parts_run (prompt : jsstring) (ps : list Part) :
  forall (found : bool) (w : World),
  exists w',
    render_parts prompt ps found w
      = (Normal (found || existsb is_image_part ps || existsb is_text_part ps), w')
    /\ imageBase64 (session w') = imageBase64 (session w)
    /\ imageMimeType (session w') = imageMimeType (session w)
    /\ editedImageSrc (session w')
       = match last_image_url ps with
         | Some u => Some u
         | None => editedImageSrc (session w)
         end
    /\ downloadButton_hidden (dom w')
       = (if existsb is_image_part ps then false else downloadButton_hidden (dom w))
    /\ resultContainer (dom w')
       = resultContainer (dom w) ++ flat_map (nodes_of_part prompt) ps
    /\ loader_hidden (dom w') = loader_hidden (dom w)
    /\ editButton_disabled (dom w') = editButton_disabled (dom w)
    /\ promptInput_value (dom w') = promptInput_value (dom w)
    /\ effects w' = effects w.
Proof.
  induction ps as [|p rest IH]; intros found w.
  - exists w. simpl. rewrite !orb_false_r, app_nil_r. split_all; reflexivity.
  - destruct (render_part_run prompt p found w)
      as (w1 & Hrun & Hb & Hm & He & Hd & Hc & Hl & Hbtn & Hp & Hfx).
    destruct (IH (found || is_image_part p || is_text_part p) w1)
      as (w2 & Hrun2 & Hb2 & Hm2 & He2 & Hd2 & Hc2 & Hl2 & Hbtn2 & Hp2 & Hfx2).
    exists w2. split.
    + simpl. unfold bind at 1. rewrite Hrun, Hrun2. f_equal. f_equal.
      destruct found, (is_image_part p), (is_text_part p),
        (existsb is_image_part rest), (existsb is_text_part rest); reflexivity.
    + rewrite Hb2, Hm2, He2, Hd2, Hc2, Hl2, Hbtn2, Hp2, Hfx2.
      rewrite Hb, Hm, He, Hd, Hc, Hl, Hbtn, Hp, Hfx.
      rewrite last_image_url_cons. simpl.
      rewrite <- app_assoc.
      split_all; try reflexivity.
      * destruct (last_image_url rest); [reflexivity|].
        destruct (inlineData p); reflexivity.
      * destruct (existsb is_image_part rest), (is_image_part p); reflexivity.
Qed.

Lemma callGemini_loading_run (w : World) :
  exists w0,
    callGemini_loading w = (Normal tt, w0)
    /\ editedImageSrc (session w0) = None
    /\ downloadButton_hidden (dom w0) = true
    /\ loader_hidden (dom w0) = false
    /\ editButton_disabled (dom w0) = true
    /\ resultContainer (dom w0) = [LoaderNode]
    /\ imageBase64 (session w0) = imageBase64 (session w)
    /\ imageMimeType (session w0) = imageMimeType (session w)
    /\ promptInput_value (dom w0) = promptInput_value (dom w)
    /\ effects w0 = effects w.
Proof.
  eexists. split; [reflexivity|]. simpl. split_all; reflexivity.
Qed.

Section CallGemini.

Variables (api : Api) (prompt base64Data mimeType : jsstring).

Lemma callGemini_construct_throws (w : World) (e : Exn) :
  construct api = Some e ->
  exists w',
    callGemini api prompt base64Data mimeType w = (Normal tt, w')
    /\ settled w w' /\ advisory_shown msg_generic_error w'
    /\ effects w'
       = effects w ++ [ConsoleError (js "Error calling Gemini API:") e].
Proof.
  intros Hc. destruct_world w. eexists. split.
  - unfold_call. rewrite Hc. unfold_js. reflexivity.
  - unfold settled, advisory_shown. simpl. split_all; reflexivity.
Qed.

Lemma callGemini_rejected (w : World) (e : Exn) :
  construct api = None ->
  generateContent api (request_of prompt base64Data mimeType) = inl e ->
  exists w',
    callGemini api prompt base64Data mimeType w = (Normal tt, w')
    /\ settled w w' /\ advisory_shown msg_generic_error w'
    /\ effects w'
       = (effects w ++ [ApiRequest (request_of prompt base64Data mimeType)])
           ++ [ConsoleError (js "Error calling Gemini API:") e].
Proof.
  intros Hc Hg. destruct_world w. eexists. split.
  - unfold_call. rewrite Hc, Hg. unfold_js. reflexivity.
  - unfold settled, advisory_shown. simpl. split_all; reflexivity.
Qed.

Lemma callGemini_no_candidates (w : World) (r : GenerateContentResponse) :
  construct api = None ->
  generateContent api (request_of prompt base64Data mimeType) = inr r ->
  candidates r = None \/ candidates r = Some [] ->
  exists w',
    callGemini api prompt base64Data mimeType w = (Normal tt, w')
    /\ settled w w' /\ advisory_shown msg_no_response w'
    /\ effects w' = effects w ++ [ApiRequest (request_of prompt base64Data mimeType)].
Proof.
  intros Hc Hg Hr. destruct_world w. eexists. split.
  - unfold_call. rewrite Hc, Hg. unfold_js.
    destruct Hr as [-> | ->]; unfold_js; reflexivity.
  - unfold settled, advisory_shown. simpl. split_all; reflexivity.
Qed.

Lemma callGemini_no_parts (w : World)
      (r : GenerateContentResponse) (c : Candidate) (cs : list Candidate) :
  construct api = None ->
  generateContent api (request_of prompt base64Data mimeType) = inr r ->
  candidates r = Some (c :: cs) ->
  content c = None \/ (exists ct, content c = Some ct /\ parts ct = None) ->
  exists w' e,
    callGemini api prompt base64Data mimeType w = (Normal tt, w')
    /\ settled w w' /\ advisory_shown msg_generic_error w'
    /\ effects w'
       = (effects w ++ [ApiRequest (request_of prompt base64Data mimeType)])
           ++ [ConsoleError (js "Error calling Gemini API:") (TypeError e)].
Proof.
  intros Hc Hg Hr Hps. destruct_world w.
  destruct Hps as [Hct | (ct & Hct & Hps)].
  - eexists. eexists. split.
    + unfold_call. rewrite Hc, Hg. unfold_js.
      rewrite Hr, Hct. unfold_js. reflexivity.
    + unfold settled, advisory_shown. simpl. split_all; reflexivity.
  - eexists. eexists. split.
    + unfold_call. rewrite Hc, Hg. unfold_js.
      rewrite Hr, Hct, Hps. unfold_js. reflexivity.
    + unfold settled, advisory_shown. simpl. split_all; reflexivity.
Qed.

Lemma callGemini_parts (w : World)
      (r : GenerateContentResponse) (c : Candidate) (cs : list Candidate)
      (ct : Content) (ps : list Part) :
  construct api = None ->
  generateContent api (request_of prompt base64Data mimeType) = inr r ->
  candidates r = Some (c :: cs) ->
  content c = Some ct ->
  parts ct = Some ps ->
  exists w',
    callGemini api prompt base64Data mimeType w = (Normal tt, w')
    /\ settled w w'
    /\ effects w' = effects w ++ [ApiRequest (request_of prompt base64Data mimeType)]
    /\ if existsb is_image_part ps || existsb is_text_part ps then
         resultContainer (dom w') = flat_map (nodes_of_part prompt) ps
         /\ editedImageSrc (session w') = last_image_url ps
         /\ downloadButton_hidden (dom w') = negb (existsb is_image_part ps)
       else advisory_shown msg_no_content w'.
Proof.
  intros Hc Hg Hr Hct Hps. destruct_world w.
  unfold_call. rewrite Hc, Hg. unfold_js.
  rewrite Hr, Hct, Hps. unfold_js.
  match goal with
  | |- context [render_parts prompt ps false ?W] =>
      destruct (render_parts_run prompt ps false W)
        as (w2 & Hrun & Hb & Hm & He & Hd & Hn & Hl & Hbtn & Hp & Hfx)
  end.
  rewrite Hrun. destruct_world w2. simpl.
  destruct (existsb is_image_part ps || existsb is_text_part ps) eqn:Hfound;
    simpl; eexists; (split; [reflexivity|]);
    unfold settled, advisory_shown; simpl.
  - split_all; try reflexivity; try assumption.
    etransitivity; [exact He|]. destruct (last_image_url ps); reflexivity.
  - apply orb_false_elim in Hfound. destruct Hfound as [Hi Ht].
    rewrite has_image_last in Hi.
    split_all; try reflexivity; try assumption.
    etransitivity; [exact He|].
    destruct (last_image_url ps); [discriminate|reflexivity].
Qed.

End CallGemini.

(** Every call of [callGemini] returns, whatever the service does, and the
    stored result is the image of the exchange, if any. *)
Lemma callGemini_total (api : Api) (prompt base64Data mimeType : jsstring)
      (w : World) :
  exists w',
    callGemini api prompt base64Data mimeType w = (Normal tt, w')
    /\ settled w w'
    /\ editedImageSrc (session w')
       = exchange_image_url api (request_of prompt base64Data mimeType)
    /\ downloadButton_hidden (dom w')
       = match exchange_image_url api (request_of prompt base64Data mimeType) with
         | Some _ => false
         | None => true
         end.
Proof.
  unfold exchange_image_url, response_image_url.
  destruct (construct api) as [e|] eqn:Hc.
  { destruct (callGemini_construct_throws api prompt base64Data mimeType w Hc)
      as (w' & Hrun & Hs & (_ & Hd & He) & _).
    exists w'. auto. }
  destruct (generateContent api (request_of prompt base64Data mimeType))
    as [e|r] eqn:Hg.
  { destruct (callGemini_rejected api prompt base64Data mimeType w Hc Hg)
      as (w' & Hrun & Hs & (_ & Hd & He) & _).
    exists w'. auto. }
  destruct (candidates r) as [[|c cs]|] eqn:Hr.
  - destruct (callGemini_no_candidates api prompt base64Data mimeType w Hc Hg (or_intror Hr))
      as (w' & Hrun & Hs & (_ & Hd & He) & _).
    exists w'. auto.
  - destruct (content c) as [ct|] eqn:Hct.
    + destruct (parts ct) as [ps|] eqn:Hps.
      * destruct (callGemini_parts api prompt base64Data mimeType w Hc Hg Hr Hct Hps)
          as (w' & Hrun & Hs & _ & Hcase).
        exists w'. split; [exact Hrun|]. split; [exact Hs|].
        destruct (existsb is_image_part ps || existsb is_text_part ps) eqn:Hf.
        -- destruct Hcase as (_ & He & Hd). split; [exact He|].
           rewrite Hd, has_image_last. destruct (last_image_url ps); reflexivity.
        -- destruct Hcase as (_ & Hd & He).
           apply orb_false_elim in Hf. destruct Hf as [Hi _].
           rewrite has_image_last in Hi.
           destruct (last_image_url ps); [discriminate|]. auto.
      * destruct (callGemini_no_parts api prompt base64Data mimeType w Hc Hg Hr
                    (or_intror (ex_intro _ ct (conj Hct Hps))))
          as (w' & msg & Hrun & Hs & (_ & Hd & He) & _).
        exists w'. auto.
    + destruct (callGemini_no_parts api prompt base64Data mimeType w Hc Hg Hr (or_introl Hct))
        as (w' & msg & Hrun & Hs & (_ & Hd & He) & _).
      exists w'. auto.
  - destruct (callGemini_no_candidates api prompt base64Data mimeType w Hc Hg (or_introl Hr))
      as (w' & Hrun & Hs & (_ & Hd & He) & _).
    exists w'. auto.
Qed.

(** *** The click on the edit control *)

(** A click that fails a precondition only raises an alert. *)
Lemma editButton_click_rejects (api : Api) (w : World) :
  truthy (imageBase64 (session w)) = false
  \/ truthy (imageMimeType (session w)) = false
  \/ trim (promptInput_value (dom w)) = [] ->
  exists msg,
    (msg = msg_no_image \/ msg = msg_no_prompt)
    /\ editButton_click api w
       = (Normal tt, mkWorld (session w) (dom w) (effects w ++ [Alert msg])).
Proof.
  intros H. destruct_world w. unfold editButton_click, editButton_click_until_await. unfold_js.
  destruct img as [[|c b]|];
    [exists msg_no_image; split; [left; reflexivity | reflexivity] | |
     exists msg_no_image; split; [left; reflexivity | reflexivity]].
  destruct mime as [[|c' m]|];
    [exists msg_no_image; split; [left; reflexivity | reflexivity] | |
     exists msg_no_image; split; [left; reflexivity | reflexivity]].
  destruct H as [H | [H | H]]; try discriminate.
  rewrite H. exists msg_no_prompt. split; [right; reflexivity | reflexivity].
Qed.

(** A click that passes them runs [callGemini] on the stored image and
    the prompt as typed. *)
Lemma editButton_click_submits (api : Api) (w : World) :
  truthy (imageBase64 (session w)) = true ->
  truthy (imageMimeType (session w)) = true ->
  truthy (Some (trim (promptInput_value (dom w)))) = true ->
  exists base64Data mimeType,
    imageBase64 (session w) = Some base64Data
    /\ imageMimeType (session w) = Some mimeType
    /\ editButton_click api w
       = callGemini api (promptInput_value (dom w)) base64Data mimeType w.
Proof.
  intros Hb Hm Hp. destruct_world w. unfold editButton_click, editButton_click_until_await. unfold_js.
  destruct img as [[|c b]|]; try discriminate.
  destruct mime as [[|c' m]|]; try discriminate.
  exists (c :: b), (c' :: m). rewrite Hp. simpl.
  split_all; reflexivity.
Qed.

(** *** Reading a file *)

Lemma run_task_normal (m : M unit) (w w' : World) :
  m w = (Normal tt, w') -> run_task m w = w'.
Proof. intros H. unfold run_task. rewrite H. reflexivity. Qed.

Lemma run_task_throw (m : M unit) (w w' : World) (e : Exn) :
  m w = (Throw e, w') ->
  run_task m w = mkWorld (session w') (dom w') (effects w' ++ [Uncaught e]).
Proof. intros H. unfold run_task. rewrite H. reflexivity. Qed.

Lemma reader_onload_malformed (result : jsstring) (w : World) :
  splits_in_two result = false ->
  reader_onload result w = (Throw (Error (js "Invalid data URL format")), w).
Proof.
  unfold splits_in_two, reader_onload. intros H. rewrite H. reflexivity.
Qed.

(** [onload] either throws before touching anything or stores both
    pieces of the same data URL. *)
Lemma reader_onload_run (result : jsstring) (w : World) :
  (exists e, reader_onload result w = (Throw e, w))
  \/ (exists mime,
        mime_of result = Some mime
        /\ reader_onload result w
           = (Normal tt, image_loaded result (payload_of result) mime w)).
Proof.
  destruct_world w. unfold reader_onload, mime_of, payload_of, image_loaded.
  destruct (Nat.eqb (List.length (split comma result)) 2).
  - destruct (nth_error (split colon (nth 0 (split comma result) [])) 1)
      as [s|].
    + right. eexists. split; [reflexivity|]. unfold_js. reflexivity.
    + left. eexists. unfold_js. reflexivity.
  - left. eexists. reflexivity.
Qed.

(** The change listener itself changes nothing: it only starts the read. *)
Lemma imageUpload_change_run (file : option File) (w : World) :
  imageUpload_change file w
  = (Normal (option_map (fun f => (mkFileReader reader_onload, f)) file), w).
Proof. destruct file; reflexivity. Qed.

(** A selection leaves the world as it was, up to a report of the
    exception that escaped [onload], or stores an image. *)
Lemma select_image_run (file : option File) (w : World) :
  select_image file w = w
  \/ (exists e,
        select_image file w
        = mkWorld (session w) (dom w) (effects w ++ [Uncaught e]))
  \/ (exists f result mime,
        file = Some f /\ readAsDataURL_result f = Some result
        /\ mime_of result = Some mime
        /\ select_image file w
           = image_loaded result (payload_of result) mime w).
Proof.
  unfold select_image. rewrite imageUpload_change_run.
  destruct file as [f|]; simpl; [|left; reflexivity].
  unfold reader_settle. simpl.
  destruct (readAsDataURL_result f) as [result|] eqn:Hres.
  - destruct (reader_onload_run result w) as [(e & He) | (mime & Hm & Hrun)].
    + right; left. exists e. apply run_task_throw, He.
    + right; right. exists f, result, mime.
      rewrite (@run_task_normal _ _ _ Hrun). auto.
  - left. reflexivity.
Qed.

(** *** Download and example prompts *)

Lemma downloadButton_click_empty (w : World) :
  truthy (editedImageSrc (session w)) = false ->
  downloadButton_click w
  = (Normal tt, mkWorld (session w) (dom w) (effects w ++ [Alert msg_no_result])).
Proof.
  intros H. destruct_world w. unfold downloadButton_click. unfold_js.
  destruct edited as [[|c u]|]; try discriminate; reflexivity.
Qed.

Lemma downloadButton_click_saves (w : World) (url : jsstring) :
  editedImageSrc (session w) = Some url ->
  url <> [] ->
  downloadButton_click w
  = (Normal tt,
     mkWorld (session w) (dom w)
             (effects w ++ [AnchorClick (mkAnchor url (js "imagen-editada.png"))])).
Proof.
  intros H Hne. destruct_world w. unfold downloadButton_click. unfold_js.
  rewrite H. destruct url as [|c u]; [congruence|].
  rewrite removelast_last. reflexivity.
Qed.

Lemma promptExamples_change_run (selectedValue : jsstring) (w : World) :
  promptExamples_change selectedValue w
  = (Normal tt,
     match selectedValue with
     | [] => w
     | _ :: _ =>
         mkWorld (session w)
                 (mkDom (originalImage_src (dom w)) (originalImage_display (dom w))
                        (uploadPlaceholder_hidden (dom w))
                        (normalize_newlines selectedValue)
                        (editButton_disabled (dom w)) (resultContainer (dom w))
                        (loader_hidden (dom w)) (downloadButton_hidden (dom w))
                        (body_appended (dom w)))
                 (effects w)
     end).
Proof.
  destruct_world w. unfold promptExamples_change.
  destruct selectedValue; reflexivity.
Qed.

(** *** What each action does to the three variables *)

Lemma last_image_url_shape (ps : list Part) (u : jsstring) :
  last_image_url ps = Some u ->
  exists p b, In p ps /\ inlineData p = Some b /\ u = imageUrl_of b.
Proof.
  induction ps as [|p rest IH]; [discriminate|].
  rewrite last_image_url_cons.
  destruct (last_image_url rest) as [u'|].
  - intros H. injection H as <-.
    destruct (IH eq_refl) as (q & b & Hin & Hq & Hu).
    exists q, b. simpl. auto.
  - destruct (inlineData p) as [b|] eqn:Hp; [|discriminate].
    intros H. injection H as <-. exists p, b. simpl. auto.
Qed.

Lemma exchange_image_url_shape (api : Api) (params : GenerateContentParameters) :
  exchange_image_url api params = None
  \/ exists b, exchange_image_url api params = Some (imageUrl_of b).
Proof.
  unfold exchange_image_url, response_image_url.
  destruct (construct api); [auto|].
  destruct (generateContent api params) as [e|r]; [auto|].
  destruct (candidates r) as [[|c cs]|]; auto.
  destruct (content c) as [ct|]; auto.
  destruct (parts ct) as [ps|]; auto.
  destruct (last_image_url ps) as [u|] eqn:Hu; auto.
  destruct (last_image_url_shape ps Hu) as (p & b & _ & _ & ->).
  right. exists b. reflexivity.
Qed.

Lemma imageUrl_of_nonempty (b : Blob) : imageUrl_of b <> [].
Proof.
  unfold imageUrl_of.
  change (js "data:") with [100; 97; 116; 97; 58]%N. discriminate.
Qed.

(** A click on the edit control always returns; it never touches the
    source image or the prompt, and leaves as result either what was
    there (a rejected click) or the image of the exchange. *)
Lemma editButton_click_run (api : Api) (w : World) :
  exists w',
    editButton_click api w = (Normal tt, w')
    /\ imageBase64 (session w') = imageBase64 (session w)
    /\ imageMimeType (session w') = imageMimeType (session w)
    /\ promptInput_value (dom w') = promptInput_value (dom w)
    /\ (editedImageSrc (session w') = editedImageSrc (session w)
        \/ editedImageSrc (session w') = None
        \/ exists b, editedImageSrc (session w') = Some (imageUrl_of b)).
Proof.
  destruct (truthy (imageBase64 (session w))) eqn:Hb;
    [|destruct (editButton_click_rejects api w (or_introl Hb)) as (msg & _ & ->);
      eexists; split_all; simpl; auto].
  destruct (truthy (imageMimeType (session w))) eqn:Hm;
    [|destruct (editButton_click_rejects api w (or_intror (or_introl Hm)))
        as (msg & _ & ->);
      eexists; split_all; simpl; auto].
  destruct (truthy (Some (trim (promptInput_value (dom w))))) eqn:Hp.
  - destruct (editButton_click_submits api w Hb Hm Hp) as (b & m & _ & _ & ->).
    destruct (callGemini_total api (promptInput_value (dom w)) b m w)
      as (w' & Hrun & (_ & _ & Hib & Him & Hpr) & He & _).
    exists w'. split_all; auto.
    destruct (exchange_image_url_shape api
                (request_of (promptInput_value (dom w)) b m)) as [Hn | (bl & Hs)].
    + right; left. congruence.
    + right; right. exists bl. congruence.
  - assert (Ht : trim (promptInput_value (dom w)) = []).
    { simpl in Hp. destruct (trim (promptInput_value (dom w))); [reflexivity|discriminate]. }
    destruct (editButton_click_rejects api w (or_intror (or_intror Ht)))
      as (msg & _ & ->).
    eexists; split_all; simpl; auto.
Qed.

Lemma downloadButton_click_run (w : World) :
  exists es, downloadButton_click w
             = (Normal tt, mkWorld (session w) (dom w) (effects w ++ es)).
Proof.
  destruct (editedImageSrc (session w)) as [[|c u]|] eqn:He.
  - exists [Alert msg_no_result]. apply downloadButton_click_empty.
    rewrite He. reflexivity.
  - eexists. apply (downloadButton_click_saves w He). discriminate.
  - exists [Alert msg_no_result]. apply downloadButton_click_empty.
    rewrite He. reflexivity.
Qed.

(** The source image changes only through a selection, and then both
    variables are set from the one data URL that was read. *)
Lemma perform_source_image (a : Action) (w : World) :
  (imageBase64 (session (perform a w)) = imageBase64 (session w)
   /\ imageMimeType (session (perform a w)) = imageMimeType (session w))
  \/ (exists f result mime,
        a = SelectImage (Some f)
        /\ readAsDataURL_result f = Some result
        /\ mime_of result = Some mime
        /\ imageBase64 (session (perform a w)) = Some (payload_of result)
        /\ imageMimeType (session (perform a w)) = Some mime).
Proof.
  destruct a as [file|value|selectedValue|api|]; simpl.
  - destruct (select_image_run file w)
      as [-> | [(e & ->) | (f & result & mime & -> & Hres & Hm & ->)]];
      [left; auto | left; auto |].
    right. exists f, result, mime. auto.
  - left. auto.
  - left. rewrite (@run_task_normal _ _ _ (promptExamples_change_run selectedValue w)).
    destruct selectedValue; auto.
  - left. destruct (editButton_click_run api w) as (w' & Hrun & Hb & Hm & _).
    rewrite (@run_task_normal _ _ _ Hrun). auto.
  - left. destruct (downloadButton_click_run w) as (es & Hrun).
    rewrite (@run_task_normal _ _ _ Hrun). auto.
Qed.

(** The stored result changes only through an edit. *)
Lemma perform_result (a : Action) (w : World) :
  editedImageSrc (session (perform a w)) = editedImageSrc (session w)
  \/ editedImageSrc (session (perform a w)) = None
  \/ exists b, editedImageSrc (session (perform a w)) = Some (imageUrl_of b).
Proof.
  destruct a as [file|value|selectedValue|api|]; simpl.
  - destruct (select_image_run file w)
      as [-> | [(e & ->) | (f & result & mime & -> & Hres & Hm & ->)]];
      left; reflexivity.
  - left. reflexivity.
  - left. rewrite (@run_task_normal _ _ _ (promptExamples_change_run selectedValue w)).
    destruct selectedValue; reflexivity.
  - destruct (editButton_click_run api w) as (w' & Hrun & _ & _ & _ & He).
    rewrite (@run_task_normal _ _ _ Hrun). exact He.
  - left. destruct (downloadButton_click_run w) as (es & Hrun).
    rewrite (@run_task_normal _ _ _ Hrun). reflexivity.
Qed.

Lemma first_parts_some (r : GenerateContentResponse) (ps : list Part) :
  first_parts r = Some ps ->
  exists c cs ct,
    candidates r = Some (c :: cs) /\ content c = Some ct /\ parts ct = Some ps.
Proof.
  unfold first_parts.
  destruct (candidates r) as [[|c cs]|]; try discriminate.
  destruct (content c) as [ct|] eqn:Hct; [|discriminate].
  intros Hps. exists c, cs, ct. auto.
Qed.

Lemma first_parts_none
      (r : GenerateContentResponse) (c : Candidate) (cs : list Candidate) :
  candidates r = Some (c :: cs) ->
  first_parts r = None ->
  content c = None \/ (exists ct, content c = Some ct /\ parts ct = None).
Proof.
  unfold first_parts. intros ->.
  destruct (content c) as [ct|]; [|auto].
  intros Hps. right. exists ct. auto.
Qed.

(** *** [callGemini] after its [await], from any state *)

Ltac unfold_resumed :=
  unfold callGemini_from_await, callGemini_handle, await, callGemini_catch,
    callGemini_finally, parts_of_first.

Section FromAwait.

Variable prompt : jsstring.

Lemma from_await_rejected (e : Exn) (w : World) :
  exists w',
    callGemini_from_await (mkSuspended prompt (inl e)) w = (Normal tt, w')
    /\ settled w w' /\ advisory_panel msg_generic_error w'
    /\ editedImageSrc (session w') = editedImageSrc (session w)
    /\ effects w'
       = effects w ++ [ConsoleError (js "Error calling Gemini API:") e].
Proof.
  destruct_world w. eexists. split.
  - unfold_resumed. unfold_js. reflexivity.
  - unfold settled, advisory_panel. simpl. split_all; reflexivity.
Qed.

Lemma from_await_no_candidates (r : GenerateContentResponse) (w : World) :
  candidates r = None \/ candidates r = Some [] ->
  exists w',
    callGemini_from_await (mkSuspended prompt (inr r)) w = (Normal tt, w')
    /\ settled w w' /\ advisory_panel msg_no_response w'
    /\ editedImageSrc (session w') = editedImageSrc (session w)
    /\ effects w' = effects w.
Proof.
  intros Hr. destruct_world w. eexists. split.
  - unfold_resumed. unfold_js.
    destruct Hr as [-> | ->]; unfold_js; reflexivity.
  - unfold settled, advisory_panel. simpl. split_all; reflexivity.
Qed.

Lemma from_await_no_parts
      (r : GenerateContentResponse) (c : Candidate) (cs : list Candidate)
      (w : World) :
  candidates r = Some (c :: cs) ->
  first_parts r = None ->
  exists w' msg,
    callGemini_from_await (mkSuspended prompt (inr r)) w = (Normal tt, w')
    /\ settled w w' /\ advisory_panel msg_generic_error w'
    /\ editedImageSrc (session w') = editedImageSrc (session w)
    /\ effects w'
       = effects w
           ++ [ConsoleError (js "Error calling Gemini API:") (TypeError msg)].
Proof.
  intros Hr Hnone. destruct_world w.
  destruct (first_parts_none r Hr Hnone) as [Hct | (ct & Hct & Hps)].
  - eexists. eexists. split.
    + unfold_resumed. unfold_js. rewrite Hr, Hct. unfold_js. reflexivity.
    + unfold settled, advisory_panel. simpl. split_all; reflexivity.
  - eexists. eexists. split.
    + unfold_resumed. unfold_js. rewrite Hr, Hct, Hps. unfold_js. reflexivity.
    + unfold settled, advisory_panel. simpl. split_all; reflexivity.
Qed.

Lemma from_await_parts
      (r : GenerateContentResponse) (ps : list Part) (w : World) :
  first_parts r = Some ps ->
  exists w',
    callGemini_from_await (mkSuspended prompt (inr r)) w = (Normal tt, w')
    /\ settled w w'
    /\ effects w' = effects w
    /\ if existsb is_image_part ps || existsb is_text_part ps then
         resultContainer (dom w') = flat_map (nodes_of_part prompt) ps
         /\ editedImageSrc (session w')
            = match last_image_url ps with
              | Some u => Some u
              | None => editedImageSrc (session w)
              end
         /\ downloadButton_hidden (dom w')
            = (if existsb is_image_part ps then false
               else downloadButton_hidden (dom w))
       else
         advisory_panel msg_no_content w'
         /\ editedImageSrc (session w') = editedImageSrc (session w).
Proof.
  intros Hps. destruct (first_parts_some r Hps) as (c & cs & ct & Hr & Hct & Hp).
  destruct_world w.
  unfold_resumed. unfold_js. rewrite Hr, Hct, Hp. unfold_js.
  match goal with
  | |- context [render_parts prompt ps false ?W] =>
      destruct (render_parts_run prompt ps false W)
        as (w2 & Hrun & Hb & Hm & He & Hd & Hn & Hl & Hbtn & Hpr & Hfx)
  end.
  rewrite Hrun. destruct_world w2. simpl.
  destruct (existsb is_image_part ps || existsb is_text_part ps) eqn:Hfound;
    simpl; eexists; (split; [reflexivity|]);
    unfold settled, advisory_panel; simpl.
  - split_all; try reflexivity; assumption.
  - apply orb_false_elim in Hfound. destruct Hfound as [Hi Ht].
    rewrite has_image_last in Hi.
    split_all; try reflexivity; try assumption.
    etransitivity; [exact He|].
    destruct (last_image_url ps); [discriminate|reflexivity].
Qed.

End FromAwait.

(** Whatever the reply, the rest of [callGemini] returns; it stores a
    result and shows the download control together, or hides the control
    and keeps the result it found, or touches neither. *)
Lemma from_await_total (s : Suspended) (w : World) :
  exists w',
    callGemini_from_await s w = (Normal tt, w')
    /\ settled w w'
    /\ result_moves w w'.
Proof.
  destruct s as [prompt [e|r]].
  { destruct (from_await_rejected prompt e w)
      as (w' & Hrun & Hs & (_ & Hd) & He & _).
    exists w'. split_all; auto. left. auto. }
  destruct (first_parts r) as [ps|] eqn:Hps.
  - destruct (from_await_parts prompt r w Hps) as (w' & Hrun & Hs & _ & Hcase).
    exists w'. split_all; auto.
    destruct (existsb is_image_part ps || existsb is_text_part ps).
    + destruct Hcase as (_ & He & Hd).
      destruct (last_image_url ps) as [u|] eqn:Hu.
      * right; right.
        destruct (last_image_url_shape ps Hu) as (p & b & _ & _ & ->).
        exists b. split; [exact He|].
        rewrite Hd, has_image_last, Hu. reflexivity.
      * left. split; [exact He|]. left.
        rewrite Hd, has_image_last, Hu. reflexivity.
    + destruct Hcase as ((_ & Hd) & He). left. auto.
  - destruct (candidates r) as [[|c cs]|] eqn:Hr.
    + destruct (from_await_no_candidates prompt r w (or_intror Hr))
        as (w' & Hrun & Hs & (_ & Hd) & He & _).
      exists w'. split_all; auto. left. auto.
    + destruct (from_await_no_parts prompt r w Hr Hps)
        as (w' & msg & Hrun & Hs & (_ & Hd) & He & _).
      exists w'. split_all; auto. left. auto.
    + destruct (from_await_no_candidates prompt r w (or_introl Hr))
        as (w' & Hrun & Hs & (_ & Hd) & He & _).
      exists w'. split_all; auto. left. auto.
Qed.

(** *** [callGemini] up to its [await] *)

Lemma until_await_sent (api : Api) (prompt base64Data mimeType : jsstring)
      (w : World) :
  construct api = None ->
  exists w1,
    callGemini_until_await api prompt base64Data mimeType w
    = (Normal (Some (mkSuspended prompt
                       (generateContent api
                          (request_of prompt base64Data mimeType)))), w1)
    /\ editedImageSrc (session w1) = None
    /\ downloadButton_hidden (dom w1) = true
    /\ loader_hidden (dom w1) = false
    /\ editButton_disabled (dom w1) = true
    /\ resultContainer (dom w1) = [LoaderNode]
    /\ imageBase64 (session w1) = imageBase64 (session w)
    /\ imageMimeType (session w1) = imageMimeType (session w)
    /\ promptInput_value (dom w1) = promptInput_value (dom w)
    /\ effects w1
       = effects w ++ [ApiRequest (request_of prompt base64Data mimeType)].
Proof.
  intros Hc. destruct_world w. eexists. split.
  - unfold callGemini_until_await, callGemini_loading, new_GoogleGenAI,
      ai_generateContent. rewrite Hc. unfold_js. reflexivity.
  - simpl. split_all; reflexivity.
Qed.

Lemma until_await_unbuildable
      (api : Api) (prompt base64Data mimeType : jsstring) (w : World) (e : Exn) :
  construct api = Some e ->
  exists w1,
    callGemini_until_await api prompt base64Data mimeType w = (Normal None, w1)
    /\ settled w w1 /\ advisory_shown msg_generic_error w1
    /\ effects w1
       = effects w ++ [ConsoleError (js "Error calling Gemini API:") e].
Proof.
  intros Hc. destruct_world w. eexists. split.
  - unfold callGemini_until_await, callGemini_loading, new_GoogleGenAI,
      ai_generateContent, callGemini_catch, callGemini_finally.
    rewrite Hc. unfold_js. reflexivity.
  - unfold settled, advisory_shown. simpl. split_all; reflexivity.
Qed.

(** The first half of a click on the edit control always returns.  It
    changes neither the variables nor the page (a rejected click), or it
    leaves no result stored and the download control hidden. *)
Lemma editButton_click_until_await_run (api : Api) (w : World) :
  exists started w1,
    editButton_click_until_await api w = (Normal started, w1)
    /\ imageBase64 (session w1) = imageBase64 (session w)
    /\ imageMimeType (session w1) = imageMimeType (session w)
    /\ ((session w1 = session w /\ dom w1 = dom w)
        \/ (editedImageSrc (session w1) = None
            /\ downloadButton_hidden (dom w1) = true)).
Proof.
  assert (Hcall : forall prompt b m,
             exists started w1,
               callGemini_until_await api prompt b m w = (Normal started, w1)
               /\ imageBase64 (session w1) = imageBase64 (session w)
               /\ imageMimeType (session w1) = imageMimeType (session w)
               /\ editedImageSrc (session w1) = None
               /\ downloadButton_hidden (dom w1) = true).
  { intros prompt b m. destruct (construct api) as [e|] eqn:Hc.
    - destruct (until_await_unbuildable api prompt b m w Hc)
        as (w1 & Hrun & (_ & _ & Hb & Hm & _) & (_ & Hd & He) & _).
      exists None, w1. auto.
    - destruct (until_await_sent api prompt b m w Hc)
        as (w1 & Hrun & He & Hd & _ & _ & _ & Hb & Hm & _).
      eexists. exists w1. split; [exact Hrun|]. auto. }
  destruct_world w. unfold editButton_click_until_await. unfold_js.
  destruct img as [[|c b]|];
    [eexists; eexists; split; [reflexivity|]; simpl; auto | |
     eexists; eexists; split; [reflexivity|]; simpl; auto].
  destruct mime as [[|c' m]|];
    [eexists; eexists; split; [reflexivity|]; simpl; auto | |
     eexists; eexists; split; [reflexivity|]; simpl; auto].
  destruct (truthy (Some (trim promptInput_value0))).
  - simpl. destruct (Hcall promptInput_value0 (c :: b) (c' :: m))
      as (started & w1 & Hrun & Hb & Hm & He & Hd).
    exists started, w1. split; [exact Hrun|]. split; [exact Hb|].
    split; [exact Hm|]. right. split; [exact He | exact Hd].
  - eexists; eexists; split; [reflexivity|]; simpl; auto.
Qed.

Lemma editButton_click_resumes (api : Api) (w w1 : World)
      (started : option Suspended) :
  editButton_click_until_await api w = (Normal started, w1) ->
  editButton_click api w = resume started w1.
Proof.
  intros H. unfold editButton_click, bind. rewrite H. reflexivity.
Qed.

(** *** The event loop *)

Lemma remove_nth_In (A : Type) (i : nat) (l : list A) (x : A) :
  In x (remove_nth i l) -> In x l.
Proof.
  unfold remove_nth. revert i. induction l as [|a l IH]; intros i H.
  - destruct i; simpl in H; contradiction.
  - destruct i as [|j]; simpl in H.
    + right. exact H.
    + destruct H as [H | H]; [left; exact H | right; apply (IH j), H].
Qed.

Lemma nth_error_last (A : Type) (l : list A) (x : A) :
  nth_error (l ++ [x]) (List.length l) = Some x.
Proof.
  induction l as [|a l IH]; [reflexivity | exact IH].
Qed.

Lemma select_image_settles (f : File) (w : World) :
  select_image (Some f) w
  = run_task (reader_settle (mkFileReader reader_onload) f) w.
Proof. unfold select_image. rewrite imageUpload_change_run. reflexivity. Qed.

(** What one event does to the world. *)
Lemma step_moves (ev : Event) (p : Page) :
  readers_ok p ->
  readers_ok (step ev p)
  /\ source_kept_or_set (world p) (world (step ev p))
  /\ result_moves (world p) (world (step ev p)).
Proof.
  intros Hok.
  assert (Hsame : source_kept_or_set (world p) (world p)
                  /\ result_moves (world p) (world p)).
  { split; left; auto. }
  destruct ev as [file|i|value|selectedValue|api|i|]; simpl.
  - rewrite imageUpload_change_run.
    destruct file as [f|]; simpl; [|auto].
    split; [|exact Hsame].
    unfold readers_ok. simpl. apply Forall_app. split; [exact Hok|].
    constructor; [reflexivity|constructor].
  - destruct (nth_error (reading p) i) as [[reader f]|] eqn:Hnth; [|auto].
    assert (Hr : reader = mkFileReader reader_onload).
    { unfold readers_ok in Hok. rewrite Forall_forall in Hok.
      apply (Hok (reader, f)), (nth_error_In _ _ Hnth). }
    subst reader. simpl. split.
    + unfold readers_ok in *. simpl. rewrite Forall_forall in *.
      intros x Hx. apply Hok, (@remove_nth_In _ _ _ _ Hx).
    + rewrite <- select_image_settles.
      destruct (select_image_run (Some f) (world p))
        as [-> | [(e & ->) | (f' & result & mime & _ & _ & _ & ->)]].
      * exact Hsame.
      * exact Hsame.
      * split; [right; eexists; eexists; split; reflexivity|].
        left. auto.
  - auto.
  - rewrite (@run_task_normal _ _ _
               (promptExamples_change_run selectedValue (world p))).
    destruct selectedValue; auto.
  - destruct (editButton_click_until_await_run api (world p))
      as (started & w1 & Hrun & Hb & Hm & Hcase).
    rewrite Hrun.
    assert (Hmove : source_kept_or_set (world p) w1 /\ result_moves (world p) w1).
    { split; [left; auto|].
      destruct Hcase as [[Hs Hd] | [He Hd]].
      - left. rewrite Hs, Hd. auto.
      - right; left. auto. }
    destruct started; simpl; auto.
  - destruct (nth_error (awaiting p) i) as [s|]; [|auto]. simpl.
    destruct (from_await_total s (world p))
      as (w' & Hrun & (_ & _ & Hb & Hm & _) & Hres).
    rewrite (@run_task_normal _ _ _ Hrun).
    split; [exact Hok|]. split; [left; auto | exact Hres].
  - destruct (downloadButton_click_run (world p)) as (es & Hrun).
    rewrite (@run_task_normal _ _ _ Hrun). auto.
Qed.

Lemma reachable_page_readers_ok (p : Page) :
  reachable_page p -> readers_ok p.
Proof.
  induction 1 as [d | ev p Hp IH]; [constructor|].
  apply step_moves, IH.
Qed.

Lemma reachable_load (d : Dom) : reachable (page_load d).
Proof. exists (start d). split; [constructor | reflexivity]. Qed.

Lemma step_FileChosen (f : File) (p : Page) :
  step (FileChosen (Some f)) p
  = mkPage (world p) (reading p ++ [(mkFileReader reader_onload, f)])
           (awaiting p).
Proof. unfold step. rewrite imageUpload_change_run. reflexivity. Qed.

Lemma step_EditClicked (api : Api) (p : Page) (w1 : World)
      (started : option Suspended) :
  editButton_click_until_await api (world p) = (Normal started, w1) ->
  step (EditClicked api) p
  = mkPage w1 (reading p)
           (match started with
            | Some s => awaiting p ++ [s]
            | None => awaiting p
            end).
Proof. intros H. unfold step. rewrite H. destruct started; reflexivity. Qed.

(** An action followed to its end is one event, or two: the start of a
    read or of a request, and its settling right away. *)
Lemma reachable_step (a : Action) (w : World) :
  reachable w -> reachable (perform a w).
Proof.
  intros (p & Hp & <-). destruct a as [file|value|selectedValue|api|].
  - destruct file as [f|].
    + exists (step (ReadSettles (List.length (reading p)))
                   (step (FileChosen (Some f)) p)).
      split; [apply reachable_page_step, reachable_page_step, Hp|].
      rewrite step_FileChosen. unfold step. cbn [reading world awaiting].
      rewrite nth_error_last. cbn [world perform].
      symmetry. apply select_image_settles.
    + exists (step (FileChosen None) p).
      split; [apply reachable_page_step, Hp | reflexivity].
  - exists (step (PromptTyped value) p).
    split; [apply reachable_page_step, Hp | reflexivity].
  - exists (step (ExampleChosen selectedValue) p).
    split; [apply reachable_page_step, Hp | reflexivity].
  - destruct (editButton_click_until_await_run api (world p))
      as (started & w1 & Hrun & _).
    cbn [perform]. unfold run_task at 1.
    rewrite (@editButton_click_resumes api _ _ _ Hrun).
    destruct started as [s|].
    + exists (step (ReplyArrives (List.length (awaiting p)))
                   (step (EditClicked api) p)).
      split; [apply reachable_page_step, reachable_page_step, Hp|].
      rewrite (@step_EditClicked api p _ _ Hrun). unfold step.
      cbn [reading world awaiting]. rewrite nth_error_last. reflexivity.
    + exists (step (EditClicked api) p).
      split; [apply reachable_page_step, Hp|].
      rewrite (@step_EditClicked api p _ _ Hrun). reflexivity.
  - exists (step DownloadClicked p).
    split; [apply reachable_page_step, Hp | reflexivity].
Qed.

Lemma reachable_page_both_or_neither (p : Page) :
  reachable_page p -> both_or_neither (session (world p)).
Proof.
  induction 1 as [d | ev p Hp IH].
  - left. split; reflexivity.
  - destruct (@step_moves ev p (reachable_page_readers_ok Hp))
      as (_ & [[Hb Hm] | (b & m & Hb & Hm)] & _).
    + unfold both_or_neither. rewrite Hb, Hm. exact IH.
    + right. eauto.
Qed.

Lemma reachable_both_or_neither (w : World) :
  reachable w -> both_or_neither (session w).
Proof. intros (p & Hp & <-). apply reachable_page_both_or_neither, Hp. Qed.

Lemma reachable_page_result_is_data_url (p : Page) :
  reachable_page p ->
  editedImageSrc (session (world p)) = None
  \/ exists b, editedImageSrc (session (world p)) = Some (imageUrl_of b).
Proof.
  induction 1 as [d | ev p Hp IH].
  - left. reflexivity.
  - destruct (@step_moves ev p (reachable_page_readers_ok Hp))
      as (_ & _ & [[He _] | [[He _] | (b & He & _)]]).
    + rewrite He. exact IH.
    + left. exact He.
    + right. exists b. exact He.
Qed.

Lemma reachable_result_is_data_url (w : World) :
  reachable w ->
  editedImageSrc (session w) = None
  \/ exists b, editedImageSrc (session w) = Some (imageUrl_of b).
Proof. intros (p & Hp & <-). apply reachable_page_result_is_data_url, Hp. Qed.

Lemma alerts_app (es es' : list Effect) :
  alerts (es ++ es') = alerts es ++ alerts es'.
Proof. unfold alerts. apply flat_map_app. Qed.

Lemma api_requests_app (es es' : list Effect) :
  api_requests (es ++ es') = api_requests es ++ api_requests es'.
Proof. unfold api_requests. apply flat_map_app. Qed.


Lemma last_image_url_last (ps : list Part) (pre : list Blob) (b : Blob) :
  image_blobs ps = pre ++ [b] -> last_image_url ps = Some (imageUrl_of b).
Proof.
  intros H. unfold last_image_url. rewrite H, rev_app_distr. reflexivity.
Qed.

Lemma select_image_malformed (f : File) (result : jsstring) (w : World) :
  readAsDataURL_result f = Some result ->
  splits_in_two result = false ->
  select_image (Some f) w
  = mkWorld (session w) (dom w)
            (effects w ++ [Uncaught (Error (js "Invalid data URL format"))]).
Proof.
  intros Hres Hbad. unfold select_image. rewrite imageUpload_change_run.
  simpl. apply run_task_throw. unfold reader_settle. rewrite Hres.
  apply reader_onload_malformed, Hbad.
Qed.

(** *** Newlines in the prompt *)

Lemma normalize_free (s : jsstring) :
  free_of 13 s = true -> normalize_newlines s = s.
Proof.
  induction s as [|c s IH]; simpl; [reflexivity|].
  destruct (c =? 13)%N; simpl; [discriminate|].
  intros H. rewrite (IH H). reflexivity.
Qed.

Lemma whitespace_normalized (s : jsstring) :
  forallb is_whitespace (normalize_newlines s) = forallb is_whitespace s.
Proof.
  assert (H : forallb is_whitespace (normalize_newlines s)
              = forallb is_whitespace s
              /\ forall c,
                   forallb is_whitespace (normalize_newlines (c :: s))
                   = forallb is_whitespace (c :: s)).
  { induction s as [|d t [IH1 IH2]].
    - split; [reflexivity|]. intros c. simpl.
      destruct (N.eqb_spec c 13) as [-> | _]; reflexivity.
    - split; [apply IH2|]. intros c.
      change (normalize_newlines (c :: d :: t))
        with (if (c =? 13)%N then
                10%N :: (if (d =? 10)%N then normalize_newlines t
                         else normalize_newlines (d :: t))
              else c :: normalize_newlines (d :: t)).
      destruct (N.eqb_spec c 13) as [-> | _].
      + destruct (N.eqb_spec d 10) as [-> | _].
        * cbn [forallb]. rewrite IH1. reflexivity.
        * cbn [forallb]. rewrite (IH2 d). reflexivity.
      + cbn [forallb]. rewrite (IH2 d). reflexivity. }
  apply H.
Qed.

(** ** Properties of the edit session *)

(** C1. Every edit submission that passes the preconditions completes,
    and when it does the busy indicator is hidden and the submit control
    is enabled again, whether the response was rendered, was empty or
    contentless, or an error was thrown on the way. *)
Theorem submission_always_cleans_up (api : Api) (w : World) :
  truthy (imageBase64 (session w)) = true ->
  truthy (imageMimeType (session w)) = true ->
  truthy (Some (trim (promptInput_value (dom w)))) = true ->
  exists w',
    editButton_click api w = (Normal tt, w')
    /\ loader_hidden (dom w') = true
    /\ editButton_disabled (dom w') = false.
Proof.
  intros Hb Hm Hp.
  destruct (editButton_click_submits api w Hb Hm Hp) as (b & m & _ & _ & ->).
  destruct (callGemini_total api (promptInput_value (dom w)) b m w)
    as (w' & Hrun & (Hl & Hd & _) & _).
  exists w'. auto.
Qed.

Lemma submission_always_cleans_up_witness :
  exists w',
    editButton_click (mkApi None (fun _ => inl (ApiError (js "503"))))
                     session_with_photo
    = (Normal tt, w')
    /\ loader_hidden (dom w') = true
    /\ editButton_disabled (dom w') = false.
Proof.
  apply (submission_always_cleans_up
           (mkApi None (fun _ => inl (ApiError (js "503")))) session_with_photo);
    vm_compute; reflexivity.
Defined.

(** C2. An edit submission with no image loaded, or with a blank or
    whitespace-only prompt, raises one alert, sends nothing to the
    generation API and leaves the session state as it was. *)
Theorem invalid_submission_only_alerts (api : Api) (w : World) :
  imageBase64 (session w) = None \/ trim (promptInput_value (dom w)) = [] ->
  exists msg w',
    (msg = msg_no_image \/ msg = msg_no_prompt)
    /\ editButton_click api w = (Normal tt, w')
    /\ effects w' = effects w ++ [Alert msg]
    /\ api_requests (effects w') = api_requests (effects w)
    /\ session w' = session w
    /\ dom w' = dom w.
Proof.
  intros H.
  assert (H' : truthy (imageBase64 (session w)) = false
               \/ truthy (imageMimeType (session w)) = false
               \/ trim (promptInput_value (dom w)) = []).
  { destruct H as [H | H]; [left; rewrite H; reflexivity | auto]. }
  destruct (editButton_click_rejects api w H') as (msg & Hmsg & Hrun).
  exists msg. eexists. split; [exact Hmsg|]. split; [exact Hrun|]. simpl.
  rewrite api_requests_app. simpl. rewrite app_nil_r. auto.
Qed.

Lemma invalid_submission_only_alerts_witness :
  exists msg w',
    (msg = msg_no_image \/ msg = msg_no_prompt)
    /\ editButton_click (api_returning (reply_with two_images))
                        (perform (TypePrompt (js "   ")) session_with_photo)
       = (Normal tt, w')
    /\ effects w'
       = effects (perform (TypePrompt (js "   ")) session_with_photo)
           ++ [Alert msg]
    /\ api_requests (effects w')
       = api_requests (effects (perform (TypePrompt (js "   ")) session_with_photo))
    /\ session w' = session (perform (TypePrompt (js "   ")) session_with_photo)
    /\ dom w' = dom (perform (TypePrompt (js "   ")) session_with_photo).
Proof.
  apply (invalid_submission_only_alerts
           (api_returning (reply_with two_images))
           (perform (TypePrompt (js "   ")) session_with_photo)).
  right. vm_compute. reflexivity.
Defined.

(** C3 (as the code runs). Selecting a file whose data URL has no comma
    leaves the session state and the page untouched, but no notice is
    shown: the exception thrown by [onload] escapes uncaught and no alert
    is raised. *)
Theorem malformed_read_shows_no_notice :
  let w := perform (SelectImage (Some empty_file)) session_with_result in
  session w = session session_with_result
  /\ dom w = dom session_with_result
  /\ alerts (effects w) = alerts (effects session_with_result)
  /\ effects w
     = effects session_with_result
         ++ [Uncaught (Error (js "Invalid data URL format"))].
Proof.
  vm_compute. split_all; reflexivity.
Qed.

(** C4. When the first candidate of the response carries two or more
    inline-binary parts, every such part overwrites the stored result as
    the loop reaches it, so that after the response is handled the stored
    result is the data URL of the last one, and the download control is
    shown. *)
Theorem last_image_wins
        (api : Api) (prompt base64Data mimeType : jsstring) (w : World)
        (r : GenerateContentResponse) (c : Candidate) (cs : list Candidate)
        (ct : Content) (ps : list Part) :
  construct api = None ->
  generateContent api (request_of prompt base64Data mimeType) = inr r ->
  candidates r = Some (c :: cs) ->
  content c = Some ct ->
  parts ct = Some ps ->
  2 <= List.length (image_blobs ps) ->
  (forall p b found w0,
      inlineData p = Some b ->
      exists w1,
        render_part prompt p found w0 = (Normal true, w1)
        /\ editedImageSrc (session w1) = Some (imageUrl_of b))
  /\ exists pre last w',
       image_blobs ps = pre ++ [last]
       /\ callGemini api prompt base64Data mimeType w = (Normal tt, w')
       /\ editedImageSrc (session w') = Some (imageUrl_of last)
       /\ downloadButton_hidden (dom w') = false.
Proof.
  intros Hc Hg Hr Hct Hps Hlen. split.
  - intros p b found w0 Hp.
    destruct (render_part_run prompt p found w0)
      as (w1 & Hrun & _ & _ & He & _).
    exists w1. rewrite Hrun, He, Hp. unfold is_image_part. rewrite Hp.
    rewrite orb_true_r. auto.
  - destruct (exists_last (l := image_blobs ps)) as (pre & last & Hlast).
    { intros E. rewrite E in Hlen. simpl in Hlen. lia. }
    destruct (callGemini_total api prompt base64Data mimeType w)
      as (w' & Hrun & _ & He & Hd).
    unfold exchange_image_url, response_image_url in He, Hd.
    rewrite Hc, Hg, Hr, Hct, Hps, (@last_image_url_last ps pre last Hlast) in He, Hd.
    exists pre, last, w'. auto.
Qed.

Lemma last_image_wins_witness :
  (forall p b found w0,
      inlineData p = Some b ->
      exists w1,
        render_part default_prompt p found w0 = (Normal true, w1)
        /\ editedImageSrc (session w1) = Some (imageUrl_of b))
  /\ exists pre last w',
       image_blobs two_images = pre ++ [last]
       /\ callGemini (api_returning (reply_with two_images)) default_prompt
                     (js "/9j/4AAQ") (js "image/jpeg") session_with_photo
          = (Normal tt, w')
       /\ editedImageSrc (session w') = Some (imageUrl_of last)
       /\ downloadButton_hidden (dom w') = false.
Proof.
  apply (@last_image_wins (api_returning (reply_with two_images)) default_prompt
           (js "/9j/4AAQ") (js "image/jpeg") session_with_photo
           (reply_with two_images)
           (mkCandidate (Some (mkContent (Some two_images)))) []
           (mkContent (Some two_images)) two_images);
    reflexivity.
Defined.

(** C5 (as the code runs).  The stored result does not stay absent on
    every error path.  The edit control, disabled while a request is out,
    is enabled again by a file read that ends meanwhile; a second
    submission can then overlap the first.  Here the second one clears
    the result when it starts, the first reply stores an image, and the
    second reply, a rejection, ends on the error path with that image
    still stored and the download control hidden. *)
Theorem overlapped_failure_leaves_a_result_stored :
  editButton_disabled
    (dom (world (run_events (firstn 2 overlapped_edits) (start blank_page))))
  = false
  /\ editButton_disabled
       (dom (world (run_events (firstn 3 overlapped_edits) (start blank_page))))
     = true
  /\ editButton_disabled
       (dom (world (run_events (firstn 5 overlapped_edits) (start blank_page))))
     = false
  /\ editedImageSrc
       (session (world (run_events (firstn 6 overlapped_edits)
                                   (start blank_page))))
     = None
  /\ List.length
       (awaiting (run_events (firstn 6 overlapped_edits) (start blank_page)))
     = 2
  /\ resultContainer
       (dom (world (run_events overlapped_edits (start blank_page))))
     = [PNode msg_generic_error (js "error")]
  /\ editedImageSrc
       (session (world (run_events overlapped_edits (start blank_page))))
     = Some (imageUrl_of (png "BBBB"))
  /\ downloadButton_hidden
       (dom (world (run_events overlapped_edits (start blank_page))))
     = true.
Proof.
  vm_compute. split_all; reflexivity.
Qed.

(** C6. In every reachable state the base64 payload and the MIME type of
    the source image are both present or both absent; every action keeps
    it so, and the only action that changes either of them is an image
    selection, which sets both from the one data URL that was read. *)
Theorem source_image_fields_together (w : World) :
  reachable w ->
  both_or_neither (session w)
  /\ forall a,
       both_or_neither (session (perform a w))
       /\ ((imageBase64 (session (perform a w)) = imageBase64 (session w)
            /\ imageMimeType (session (perform a w)) = imageMimeType (session w))
           \/ exists f result mime,
                a = SelectImage (Some f)
                /\ readAsDataURL_result f = Some result
                /\ mime_of result = Some mime
                /\ imageBase64 (session (perform a w)) = Some (payload_of result)
                /\ imageMimeType (session (perform a w)) = Some mime).
Proof.
  intros Hw. split; [apply reachable_both_or_neither, Hw|].
  intros a. split.
  - apply reachable_both_or_neither, reachable_step, Hw.
  - apply perform_source_image.
Qed.

Lemma source_image_fields_together_witness :
  both_or_neither (session session_with_photo)
  /\ forall a,
       both_or_neither (session (perform a session_with_photo))
       /\ ((imageBase64 (session (perform a session_with_photo))
            = imageBase64 (session session_with_photo)
            /\ imageMimeType (session (perform a session_with_photo))
               = imageMimeType (session session_with_photo))
           \/ exists f result mime,
                a = SelectImage (Some f)
                /\ readAsDataURL_result f = Some result
                /\ mime_of result = Some mime
                /\ imageBase64 (session (perform a session_with_photo))
                   = Some (payload_of result)
                /\ imageMimeType (session (perform a session_with_photo))
                   = Some mime).
Proof.
  apply (source_image_fields_together (w := session_with_photo)).
  unfold session_with_photo, session_start.
  apply reachable_step, reachable_load.
Defined.




(** C8. A download with no stored result raises an alert and triggers no
    file save; with a stored result it triggers a save of exactly the
    stored data URL under the name imagen-editada.png.  Either way the
    session state and the page are as before. *)
Theorem download_saves_stored_result (w : World) :
  reachable w ->
  match editedImageSrc (session w) with
  | None =>
      downloadButton_click w
      = (Normal tt,
         mkWorld (session w) (dom w) (effects w ++ [Alert msg_no_result]))
  | Some url =>
      downloadButton_click w
      = (Normal tt,
         mkWorld (session w) (dom w)
                 (effects w
                    ++ [AnchorClick (mkAnchor url (js "imagen-editada.png"))]))
  end.
Proof.
  intros Hw.
  destruct (reachable_result_is_data_url Hw) as [He | (b & He)]; rewrite He.
  - apply downloadButton_click_empty. rewrite He. reflexivity.
  - apply (downloadButton_click_saves w He), imageUrl_of_nonempty.
Qed.

Lemma download_saves_stored_result_witness :
  match editedImageSrc (session session_with_result) with
  | None =>
      downloadButton_click session_with_result
      = (Normal tt,
         mkWorld (session session_with_result) (dom session_with_result)
                 (effects session_with_result ++ [Alert msg_no_result]))
  | Some url =>
      downloadButton_click session_with_result
      = (Normal tt,
         mkWorld (session session_with_result) (dom session_with_result)
                 (effects session_with_result
                    ++ [AnchorClick (mkAnchor url (js "imagen-editada.png"))]))
  end.
Proof.
  apply (download_saves_stored_result (w := session_with_result)).
  unfold session_with_result, session_with_photo, session_start.
  apply reachable_step, reachable_step, reachable_load.
Defined.

(** C9 (as stated) fails: choosing the entry whose value is the empty
    string does not overwrite the prompt. *)
Lemma empty_example_keeps_prompt :
  promptInput_value (dom (perform (ChooseExample []) session_start))
  <> [].
Proof. vm_compute. discriminate. Qed.

(** C9 (amended). Choosing an example whose value is not empty sets the
    prompt, which then reads as that value with every CR LF pair and every
    lone CR turned into LF - the value verbatim when it holds no CR;
    choosing one whose value is empty leaves the prompt as it is.  Nothing
    else is checked, and nothing else changes. *)
Theorem example_prompt_overwrites (selectedValue : jsstring) (w : World) :
  session (perform (ChooseExample selectedValue) w) = session w
  /\ effects (perform (ChooseExample selectedValue) w) = effects w
  /\ promptInput_value (dom (perform (ChooseExample selectedValue) w))
     = match selectedValue with
       | [] => promptInput_value (dom w)
       | _ :: _ => normalize_newlines selectedValue
       end
  /\ (selectedValue <> [] ->
      free_of 13 selectedValue = true ->
      promptInput_value (dom (perform (ChooseExample selectedValue) w))
      = selectedValue).
Proof.
  cbn [perform].
  rewrite (@run_task_normal _ _ _ (promptExamples_change_run selectedValue w)).
  destruct selectedValue as [|c v].
  - split_all; auto. intros H. congruence.
  - cbn [session effects dom promptInput_value]. split_all; auto.
    intros _ H. apply normalize_free, H.
Qed.

(** C10. A part that carries both inline binary data and text is rendered
    as an image only: the loop appends the image node and nothing else,
    and stores the image as the result. *)
Theorem image_takes_priority_over_text
        (prompt : jsstring) (p : Part) (b : Blob) (t : jsstring)
        (found : bool) (w : World) :
  inlineData p = Some b ->
  text p = Some t ->
  exists w',
    render_part prompt p found w = (Normal true, w')
    /\ resultContainer (dom w')
       = resultContainer (dom w) ++ [ImgNode (imageUrl_of b) prompt]
    /\ editedImageSrc (session w') = Some (imageUrl_of b)
    /\ downloadButton_hidden (dom w') = false.
Proof.
  intros Hb Ht.
  destruct (render_part_run prompt p found w)
    as (w' & Hrun & _ & _ & He & Hd & Hn & _).
  unfold is_image_part, nodes_of_part in *. rewrite Hb in *.
  exists w'. rewrite Hrun, orb_true_r. auto.
Qed.

Lemma image_takes_priority_over_text_witness :
  exists w',
    render_part default_prompt
                (mkPart (Some (png "BBBB")) (Some (js "pie de foto")))
                false session_with_photo
    = (Normal true, w')
    /\ resultContainer (dom w')
       = resultContainer (dom session_with_photo)
           ++ [ImgNode (imageUrl_of (png "BBBB")) default_prompt]
    /\ editedImageSrc (session w') = Some (imageUrl_of (png "BBBB"))
    /\ downloadButton_hidden (dom w') = false.
Proof.
  apply (@image_takes_priority_over_text default_prompt
           (mkPart (Some (png "BBBB")) (Some (js "pie de foto")))
           (png "BBBB") (js "pie de foto") false session_with_photo);
    reflexivity.
Defined.

(** ** Further facts: splitting data URLs *)

Lemma plain_free (s : jsstring) :
  plain s = true ->
  free_of comma s = true /\ free_of colon s = true /\ free_of semicolon s = true.
Proof.
  unfold plain. intros H.
  apply andb_true_iff in H. destruct H as [H Hs].
  apply andb_true_iff in H. destruct H as [Hc Hk]. auto.
Qed.

Lemma free_of_app (sep : N) (a b : jsstring) :
  free_of sep (a ++ b) = free_of sep a && free_of sep b.
Proof. unfold free_of. apply forallb_app. Qed.

Lemma split_free (sep : N) (s : jsstring) :
  free_of sep s = true -> split sep s = [s].
Proof.
  induction s as [|c s IH]; simpl; [reflexivity|].
  destruct (c =? sep)%N; simpl; [discriminate|].
  intros H. rewrite (IH H). reflexivity.
Qed.

Lemma split_at (sep : N) (a b : jsstring) :
  free_of sep a = true -> split sep (a ++ sep :: b) = a :: split sep b.
Proof.
  induction a as [|c a IH]; simpl.
  - rewrite N.eqb_refl. reflexivity.
  - destruct (c =? sep)%N; simpl; [discriminate|].
    intros H. rewrite (IH H). reflexivity.
Qed.

Lemma js_data : js "data:" = [100; 97; 116; 97; 58]%N.
Proof. vm_compute. reflexivity. Qed.

Lemma js_base64 : js ";base64," = [59; 98; 97; 115; 101; 54; 52; 44]%N.
Proof. vm_compute. reflexivity. Qed.

(** [onload]'s three splits recover the two pieces of a data URL. *)
Lemma data_url_pieces (mime payload : jsstring) :
  plain mime = true ->
  free_of comma payload = true ->
  splits_in_two (data_url mime payload) = true
  /\ payload_of (data_url mime payload) = payload
  /\ mime_of (data_url mime payload) = Some mime.
Proof.
  intros Hm Hp. destruct (plain_free mime Hm) as (Hc & Hk & Hs).
  assert (Hcomma : split comma (data_url mime payload)
                   = [[100; 97; 116; 97; 58]%N ++ mime
                        ++ [59; 98; 97; 115; 101; 54; 52]%N; payload]).
  { unfold data_url. rewrite js_data, js_base64.
    change ([59; 98; 97; 115; 101; 54; 52; 44]%N ++ payload)
      with ([59; 98; 97; 115; 101; 54; 52]%N ++ comma :: payload).
    rewrite !app_assoc.
    rewrite split_at, (split_free comma payload Hp); [reflexivity|].
    rewrite !free_of_app, Hc. reflexivity. }
  unfold splits_in_two, payload_of, mime_of. rewrite Hcomma. cbn [nth].
  split; [reflexivity|]. split; [reflexivity|].
  change ([100; 97; 116; 97; 58]%N ++ mime ++ [59; 98; 97; 115; 101; 54; 52]%N)
    with ([100; 97; 116; 97]%N
            ++ colon :: (mime ++ [59; 98; 97; 115; 101; 54; 52]%N)).
  rewrite split_at by reflexivity.
  rewrite split_free by (rewrite free_of_app, Hk; reflexivity).
  cbn [nth_error nth].
  change (mime ++ [59; 98; 97; 115; 101; 54; 52]%N)
    with (mime ++ semicolon :: [98; 97; 115; 101; 54; 52]%N).
  rewrite split_at by exact Hs. reflexivity.
Qed.

Lemma reader_onload_stores (result mime : jsstring) (w : World) :
  splits_in_two result = true ->
  mime_of result = Some mime ->
  reader_onload result w
  = (Normal tt, image_loaded result (payload_of result) mime w).
Proof.
  unfold splits_in_two, mime_of, payload_of, image_loaded, reader_onload.
  intros H2 Hm. destruct_world w. rewrite H2. simpl negb. cbv iota.
  destruct (nth_error (split colon (nth 0 (split comma result) [])) 1)
    as [s|]; [|discriminate].
  injection Hm as <-. unfold_js. reflexivity.
Qed.

Lemma reader_onload_no_colon (result : jsstring) (w : World) :
  splits_in_two result = true ->
  mime_of result = None ->
  exists msg, reader_onload result w = (Throw (TypeError msg), w).
Proof.
  unfold splits_in_two, mime_of, reader_onload.
  intros H2 Hm. destruct_world w. rewrite H2. simpl negb. cbv iota.
  destruct (nth_error (split colon (nth 0 (split comma result) [])) 1)
    as [s|]; [discriminate|].
  eexists. unfold_js. reflexivity.
Qed.


(** ** Further facts: blank prompts *)

Lemma trimStart_nil (s : jsstring) :
  trimStart s = [] <-> forallb is_whitespace s = true.
Proof.
  induction s as [|c s IH]; simpl; [tauto|].
  destruct (is_whitespace c); simpl; [exact IH|].
  split; discriminate.
Qed.

Lemma trimStart_head (s t : jsstring) (c : N) :
  trimStart s = c :: t -> is_whitespace c = false.
Proof.
  induction s as [|d s IH]; simpl; [discriminate|].
  destruct (is_whitespace d) eqn:Hd; [exact IH|].
  intros H. injection H as <- _. exact Hd.
Qed.

Lemma forallb_rev_true (A : Type) (f : A -> bool) (l : list A) :
  forallb f (rev l) = true -> forallb f l = true.
Proof.
  rewrite !forallb_forall. intros H x Hx. apply H, in_rev.
  rewrite rev_involutive. exact Hx.
Qed.

(** [trim] leaves nothing exactly when every code unit is whitespace. *)
Lemma trim_blank (s : jsstring) :
  trim s = [] <-> forallb is_whitespace s = true.
Proof.
  unfold trim, trimEnd. split.
  - intros H.
    assert (H1 : trimStart (rev (trimStart s)) = []).
    { destruct (trimStart (rev (trimStart s))) as [|c t]; [reflexivity|].
      simpl in H. destruct (rev t); discriminate. }
    apply trimStart_nil, forallb_rev_true in H1.
    destruct (trimStart s) as [|c t] eqn:Hs.
    + apply trimStart_nil, Hs.
    + apply trimStart_head in Hs. simpl in H1. rewrite Hs in H1. discriminate.
  - intros H. apply trimStart_nil in H. rewrite H. reflexivity.
Qed.

Lemma submittable_click (api : Api) (w : World) (base64Data mimeType : jsstring) :
  submittable w base64Data mimeType ->
  editButton_click api w
  = callGemini api (promptInput_value (dom w)) base64Data mimeType w.
Proof.
  intros (Hb & Hbt & Hm & Hmt & Hp).
  assert (Ht : truthy (Some (trim (promptInput_value (dom w)))) = true).
  { destruct (trim (promptInput_value (dom w))) eqn:E; [|reflexivity].
    apply trim_blank in E. congruence. }
  destruct (editButton_click_submits api w) as (b & m & Hb' & Hm' & ->);
    [rewrite Hb; exact Hbt | rewrite Hm; exact Hmt | exact Ht |].
  congruence.
Qed.

(** ** Further properties: selecting an image *)

(** X1. Reading a data URL of the usual shape, whose MIME type holds no
    comma, colon or semicolon and whose payload holds no comma, stores
    exactly that payload and that MIME type, shows the picture, hides the
    upload placeholder and enables the edit control; the stored result,
    the prompt, the result panel and the effects are left as they were. *)
Theorem selecting_data_url_stores_its_pieces
        (f : File) (mime payload : jsstring) (w : World) :
  readAsDataURL_result f = Some (data_url mime payload) ->
  plain mime = true ->
  free_of comma payload = true ->
  select_image (Some f) w
  = mkWorld
      (mkSession (Some payload) (Some mime) (editedImageSrc (session w)))
      (mkDom (Some (data_url mime payload)) (js "block") true
             (promptInput_value (dom w)) false (resultContainer (dom w))
             (loader_hidden (dom w)) (downloadButton_hidden (dom w))
             (body_appended (dom w)))
      (effects w).
Proof.
  intros Hf Hm Hp.
  destruct (data_url_pieces mime payload Hm Hp) as (H2 & Hpay & Hmime).
  rewrite select_image_settles. unfold reader_settle. rewrite Hf. simpl onload.
  rewrite (@run_task_normal _ _ _ (@reader_onload_stores _ _ w H2 Hmime)).
  unfold image_loaded. rewrite Hpay. reflexivity.
Qed.

Lemma selecting_data_url_stores_its_pieces_witness :
  select_image (Some (mkFile (Some (data_url (js "image/jpeg") (js "/9j/4AAQ")))))
               session_with_result
  = mkWorld
      (mkSession (Some (js "/9j/4AAQ")) (Some (js "image/jpeg"))
                 (editedImageSrc (session session_with_result)))
      (mkDom (Some (data_url (js "image/jpeg") (js "/9j/4AAQ"))) (js "block") true
             (promptInput_value (dom session_with_result)) false
             (resultContainer (dom session_with_result))
             (loader_hidden (dom session_with_result))
             (downloadButton_hidden (dom session_with_result))
             (body_appended (dom session_with_result)))
      (effects session_with_result).
Proof.
  apply (@selecting_data_url_stores_its_pieces
           (mkFile (Some (data_url (js "image/jpeg") (js "/9j/4AAQ"))))
           (js "image/jpeg") (js "/9j/4AAQ") session_with_result);
    vm_compute; reflexivity.
Defined.

(** X2. When the text read splits at its one comma but the part before
    the comma holds no colon, [onload] fails with a TypeError before it
    assigns anything: the session and the page stay as they were, no
    alert is raised, and the error is left uncaught. *)
Theorem selecting_url_without_colon_changes_nothing
        (f : File) (result : jsstring) (w : World) :
  readAsDataURL_result f = Some result ->
  splits_in_two result = true ->
  mime_of result = None ->
  exists msg,
    select_image (Some f) w
    = mkWorld (session w) (dom w) (effects w ++ [Uncaught (TypeError msg)]).
Proof.
  intros Hf H2 Hm.
  destruct (@reader_onload_no_colon _ w H2 Hm) as (msg & Hrun).
  exists msg. rewrite select_image_settles. unfold reader_settle.
  rewrite Hf. simpl onload. apply run_task_throw, Hrun.
Qed.

Lemma selecting_url_without_colon_changes_nothing_witness :
  exists msg,
    select_image (Some (mkFile (Some (js "abc,def")))) session_with_photo
    = mkWorld (session session_with_photo) (dom session_with_photo)
              (effects session_with_photo ++ [Uncaught (TypeError msg)]).
Proof.
  apply (@selecting_url_without_colon_changes_nothing
           (mkFile (Some (js "abc,def"))) (js "abc,def") session_with_photo);
    vm_compute; reflexivity.
Defined.

(** X3. No image selection, whatever the file and however its read ends,
    touches the stored result, the prompt, the result panel, the busy
    indicator or the download control, raises an alert or sends anything
    to the API: an earlier result stays on show and downloadable. *)
Theorem selection_keeps_result (file : option File) (w : World) :
  editedImageSrc (session (select_image file w)) = editedImageSrc (session w)
  /\ promptInput_value (dom (select_image file w)) = promptInput_value (dom w)
  /\ resultContainer (dom (select_image file w)) = resultContainer (dom w)
  /\ loader_hidden (dom (select_image file w)) = loader_hidden (dom w)
  /\ downloadButton_hidden (dom (select_image file w))
     = downloadButton_hidden (dom w)
  /\ alerts (effects (select_image file w)) = alerts (effects w)
  /\ api_requests (effects (select_image file w)) = api_requests (effects w).
Proof.
  destruct (select_image_run file w)
    as [-> | [(e & ->) | (f & result & mime & _ & _ & _ & ->)]]; simpl.
  - split_all; reflexivity.
  - rewrite alerts_app, api_requests_app. simpl. rewrite !app_nil_r.
    split_all; reflexivity.
  - split_all; reflexivity.
Qed.

(** ** Further facts: one exchange with the service *)

(** A call whose client can be built sends its one request first; all it
    may add afterwards is one console entry. *)
Lemma callGemini_effects (api : Api) (prompt base64Data mimeType : jsstring)
      (w : World) :
  construct api = None ->
  exists w' es,
    callGemini api prompt base64Data mimeType w = (Normal tt, w')
    /\ effects w'
       = (effects w ++ [ApiRequest (request_of prompt base64Data mimeType)]) ++ es
    /\ api_requests es = [] /\ alerts es = [].
Proof.
  intros Hc.
  destruct (generateContent api (request_of prompt base64Data mimeType))
    as [e|r] eqn:Hg.
  { destruct (callGemini_rejected api prompt base64Data mimeType w Hc Hg)
      as (w' & Hrun & _ & _ & Hfx).
    exists w'. eexists. split; [exact Hrun|]. split; [exact Hfx|]. auto. }
  destruct (candidates r) as [[|c cs]|] eqn:Hr.
  - destruct (callGemini_no_candidates api prompt base64Data mimeType w Hc Hg
                (or_intror Hr)) as (w' & Hrun & _ & _ & Hfx).
    exists w', []. rewrite app_nil_r. auto.
  - destruct (first_parts r) as [ps|] eqn:Hps.
    + destruct (first_parts_some r Hps) as (c' & cs' & ct & Hr' & Hct & Hp).
      destruct (callGemini_parts api prompt base64Data mimeType w Hc Hg Hr' Hct Hp)
        as (w' & Hrun & _ & Hfx & _).
      exists w', []. rewrite app_nil_r. auto.
    + destruct (callGemini_no_parts api prompt base64Data mimeType w Hc Hg Hr
                  (first_parts_none r Hr Hps))
        as (w' & msg & Hrun & _ & _ & Hfx).
      exists w'. eexists. split; [exact Hrun|]. split; [exact Hfx|]. auto.
  - destruct (callGemini_no_candidates api prompt base64Data mimeType w Hc Hg
                (or_introl Hr)) as (w' & Hrun & _ & _ & Hfx).
    exists w', []. rewrite app_nil_r. auto.
Qed.

(** ** Further properties: submitting an edit *)

(** X4. A click on the edit control with an image stored and a prompt
    that is not all whitespace sends exactly one request when the client
    can be built: it carries the stored payload, the stored MIME type and
    the prompt exactly as typed (untrimmed), and no alert is raised. *)
Theorem submission_sends_one_request
        (api : Api) (w : World) (base64Data mimeType : jsstring) :
  submittable w base64Data mimeType ->
  construct api = None ->
  exists w',
    editButton_click api w = (Normal tt, w')
    /\ api_requests (effects w')
       = api_requests (effects w)
           ++ [request_of (promptInput_value (dom w)) base64Data mimeType]
    /\ alerts (effects w') = alerts (effects w).
Proof.
  intros Hs Hc. rewrite (submittable_click api Hs).
  destruct (callGemini_effects api (promptInput_value (dom w))
              base64Data mimeType w Hc) as (w' & es & Hrun & Hfx & Hreq & Hal).
  exists w'. split; [exact Hrun|]. rewrite Hfx.
  rewrite !api_requests_app, !alerts_app, Hreq, Hal. simpl.
  rewrite !app_nil_r. auto.
Qed.

Lemma submission_sends_one_request_witness :
  exists w',
    editButton_click (api_rejecting (ApiError (js "503")))
                     (perform (TypePrompt (js " mas luz ")) session_with_photo)
    = (Normal tt, w')
    /\ api_requests (effects w')
       = api_requests
           (effects (perform (TypePrompt (js " mas luz ")) session_with_photo))
           ++ [request_of
                 (promptInput_value
                    (dom (perform (TypePrompt (js " mas luz ")) session_with_photo)))
                 (js "/9j/4AAQ") (js "image/jpeg")]
    /\ alerts (effects w')
       = alerts (effects (perform (TypePrompt (js " mas luz ")) session_with_photo)).
Proof.
  apply (@submission_sends_one_request
           (api_rejecting (ApiError (js "503")))
           (perform (TypePrompt (js " mas luz ")) session_with_photo)
           (js "/9j/4AAQ") (js "image/jpeg")).
  - unfold submittable. split_all; vm_compute; reflexivity.
  - reflexivity.
Defined.

(** X5. When the client cannot be built, a valid submission sends nothing
    to the API: the error is logged to the console, the generic advisory
    replaces the result panel, no result is stored and the download
    control is hidden. *)
Theorem unbuildable_client_sends_nothing
        (api : Api) (w : World) (base64Data mimeType : jsstring) (e : Exn) :
  submittable w base64Data mimeType ->
  construct api = Some e ->
  exists w',
    editButton_click api w = (Normal tt, w')
    /\ effects w'
       = effects w ++ [ConsoleError (js "Error calling Gemini API:") e]
    /\ advisory_shown msg_generic_error w'.
Proof.
  intros Hs Hc. rewrite (submittable_click api Hs).
  destruct (callGemini_construct_throws api (promptInput_value (dom w))
              base64Data mimeType w Hc) as (w' & Hrun & _ & Ha & Hfx).
  exists w'. auto.
Qed.

Lemma unbuildable_client_sends_nothing_witness :
  exists w',
    editButton_click (api_unbuildable (Error (js "An API Key must be set")))
                     session_with_photo
    = (Normal tt, w')
    /\ effects w'
       = effects session_with_photo
           ++ [ConsoleError (js "Error calling Gemini API:")
                            (Error (js "An API Key must be set"))]
    /\ advisory_shown msg_generic_error w'.
Proof.
  apply (@unbuildable_client_sends_nothing
           (api_unbuildable (Error (js "An API Key must be set")))
           session_with_photo (js "/9j/4AAQ") (js "image/jpeg")
           (Error (js "An API Key must be set"))).
  - unfold submittable. split_all; vm_compute; reflexivity.
  - reflexivity.
Defined.

(** X6. When the reply is a rejection, the rest of [callGemini] - in
    whatever state the page is by then - logs that very error to the
    console, shows the generic advisory as the only content of the result
    panel, hides the download control and the busy indicator and enables
    the edit control; it leaves the stored result as it found it. *)
Theorem rejected_request_shows_generic_advisory
        (s : Suspended) (e : Exn) (w : World) :
  awaited_reply s = inl e ->
  exists w',
    callGemini_from_await s w = (Normal tt, w')
    /\ effects w'
       = effects w ++ [ConsoleError (js "Error calling Gemini API:") e]
    /\ advisory_panel msg_generic_error w'
    /\ editedImageSrc (session w') = editedImageSrc (session w)
    /\ loader_hidden (dom w') = true
    /\ editButton_disabled (dom w') = false.
Proof.
  destruct s as [prompt reply]. simpl. intros ->.
  destruct (from_await_rejected prompt e w)
    as (w' & Hrun & (Hl & Hd & _) & Ha & He & Hfx).
  exists w'. auto 10.
Qed.

Lemma rejected_request_shows_generic_advisory_witness :
  exists w',
    callGemini_from_await
      (mkSuspended default_prompt (inl (ApiError (js "503"))))
      session_with_result
    = (Normal tt, w')
    /\ effects w'
       = effects session_with_result
           ++ [ConsoleError (js "Error calling Gemini API:") (ApiError (js "503"))]
    /\ advisory_panel msg_generic_error w'
    /\ editedImageSrc (session w') = editedImageSrc (session session_with_result)
    /\ loader_hidden (dom w') = true
    /\ editButton_disabled (dom w') = false.
Proof.
  apply (@rejected_request_shows_generic_advisory
           (mkSuspended default_prompt (inl (ApiError (js "503"))))
           (ApiError (js "503")) session_with_result).
  reflexivity.
Defined.

(** X7. When the first candidate of the reply has no content, or content
    without a part list, reading the parts throws: the rest of
    [callGemini] logs a TypeError and shows the generic advisory, not the
    no-editable-content one; it hides the download control and leaves the
    stored result as it found it. *)
Theorem candidate_without_parts_shows_generic_advisory
        (s : Suspended) (r : GenerateContentResponse)
        (c : Candidate) (cs : list Candidate) (w : World) :
  awaited_reply s = inr r ->
  candidates r = Some (c :: cs) ->
  first_parts r = None ->
  exists w' msg,
    callGemini_from_await s w = (Normal tt, w')
    /\ effects w'
       = effects w
           ++ [ConsoleError (js "Error calling Gemini API:") (TypeError msg)]
    /\ advisory_panel msg_generic_error w'
    /\ editedImageSrc (session w') = editedImageSrc (session w).
Proof.
  destruct s as [prompt reply]. simpl. intros -> Hr Hps.
  destruct (from_await_no_parts prompt r w Hr Hps)
    as (w' & msg & Hrun & _ & Ha & He & Hfx).
  exists w', msg. auto.
Qed.

Lemma candidate_without_parts_shows_generic_advisory_witness :
  exists w' msg,
    callGemini_from_await
      (mkSuspended default_prompt (inr (mkResponse (Some [mkCandidate None]))))
      session_with_photo
    = (Normal tt, w')
    /\ effects w'
       = effects session_with_photo
           ++ [ConsoleError (js "Error calling Gemini API:") (TypeError msg)]
    /\ advisory_panel msg_generic_error w'
    /\ editedImageSrc (session w') = editedImageSrc (session session_with_photo).
Proof.
  apply (@candidate_without_parts_shows_generic_advisory
           (mkSuspended default_prompt (inr (mkResponse (Some [mkCandidate None]))))
           (mkResponse (Some [mkCandidate None])) (mkCandidate None) []
           session_with_photo);
    reflexivity.
Defined.

(** X8. When the reply has a part list in which at least one part is an
    image or a non-empty text, the rest of [callGemini] leaves the result
    panel holding exactly the nodes of those parts in the order the API
    gave them - images with the prompt of that call as alternative text,
    texts as model-text paragraphs, other parts skipped - and nothing of
    what it held before.  With an image among them the last one becomes
    the stored result and the download control is shown; with none, the
    stored result and the download control are left as they were. *)
Theorem rendered_parts_fill_the_panel
        (s : Suspended) (r : GenerateContentResponse) (ps : list Part)
        (w : World) :
  awaited_reply s = inr r ->
  first_parts r = Some ps ->
  existsb is_image_part ps || existsb is_text_part ps = true ->
  exists w',
    callGemini_from_await s w = (Normal tt, w')
    /\ resultContainer (dom w') = flat_map (nodes_of_part (awaited_prompt s)) ps
    /\ editedImageSrc (session w')
       = match last_image_url ps with
         | Some u => Some u
         | None => editedImageSrc (session w)
         end
    /\ downloadButton_hidden (dom w')
       = (if existsb is_image_part ps then false
          else downloadButton_hidden (dom w)).
Proof.
  destruct s as [prompt reply]. simpl. intros -> Hps Hfound.
  destruct (from_await_parts prompt r w Hps) as (w' & Hrun & _ & _ & Hcase).
  rewrite Hfound in Hcase. exists w'. tauto.
Qed.

Lemma rendered_parts_fill_the_panel_witness :
  exists w',
    callGemini_from_await
      (mkSuspended default_prompt (inr (reply_with two_images)))
      session_with_result
    = (Normal tt, w')
    /\ resultContainer (dom w')
       = flat_map
           (nodes_of_part
              (awaited_prompt
                 (mkSuspended default_prompt (inr (reply_with two_images)))))
           two_images
    /\ editedImageSrc (session w')
       = match last_image_url two_images with
         | Some u => Some u
         | None => editedImageSrc (session session_with_result)
         end
    /\ downloadButton_hidden (dom w')
       = (if existsb is_image_part two_images then false
          else downloadButton_hidden (dom session_with_result)).
Proof.
  apply (@rendered_parts_fill_the_panel
           (mkSuspended default_prompt (inr (reply_with two_images)))
           (reply_with two_images) two_images session_with_result);
    reflexivity.
Defined.

(** X9. With an image stored and a prompt made of whitespace only, a
    click on the edit control raises the enter-an-instruction alert, and
    only that: nothing is sent and nothing else changes. *)
Theorem blank_prompt_alert (api : Api) (w : World) :
  truthy (imageBase64 (session w)) = true ->
  truthy (imageMimeType (session w)) = true ->
  forallb is_whitespace (promptInput_value (dom w)) = true ->
  editButton_click api w
  = (Normal tt, mkWorld (session w) (dom w) (effects w ++ [Alert msg_no_prompt])).
Proof.
  intros Hb Hm Hp. apply trim_blank in Hp.
  destruct_world w. unfold editButton_click, editButton_click_until_await. unfold_js.
  destruct img as [[|c b]|]; try discriminate.
  destruct mime as [[|c' m]|]; try discriminate.
  rewrite Hp. reflexivity.
Qed.

Lemma blank_prompt_alert_witness :
  editButton_click (api_returning (reply_with two_images))
                   (perform (TypePrompt (js "   ")) session_with_photo)
  = (Normal tt,
     mkWorld (session (perform (TypePrompt (js "   ")) session_with_photo))
             (dom (perform (TypePrompt (js "   ")) session_with_photo))
             (effects (perform (TypePrompt (js "   ")) session_with_photo)
                ++ [Alert msg_no_prompt])).
Proof.
  apply (blank_prompt_alert (api_returning (reply_with two_images))
           (perform (TypePrompt (js "   ")) session_with_photo));
    vm_compute; reflexivity.
Defined.

(** A click with no usable image raises the upload-first alert, whatever
    the prompt. *)
Lemma editButton_click_no_image (api : Api) (w : World) :
  truthy (imageBase64 (session w)) = false
  \/ truthy (imageMimeType (session w)) = false ->
  editButton_click api w
  = (Normal tt, mkWorld (session w) (dom w) (effects w ++ [Alert msg_no_image])).
Proof.
  intros H. destruct_world w. unfold editButton_click, editButton_click_until_await. unfold_js.
  destruct img as [[|c b]|]; [reflexivity | | reflexivity].
  destruct mime as [[|c' m]|]; [reflexivity | | reflexivity].
  destruct H; discriminate.
Qed.

(** X10. A data URL with an empty payload or an empty MIME type is read
    without complaint - both pieces are stored and the edit control is
    enabled - but the stored image is then unusable: every click on the
    edit control only raises the upload-first alert, whatever the prompt,
    and sends nothing. *)
Theorem empty_piece_is_stored_but_unusable
        (f : File) (mime payload : jsstring) (api : Api) (w : World) :
  readAsDataURL_result f = Some (data_url mime payload) ->
  plain mime = true ->
  free_of comma payload = true ->
  mime = [] \/ payload = [] ->
  imageBase64 (session (select_image (Some f) w)) = Some payload
  /\ imageMimeType (session (select_image (Some f) w)) = Some mime
  /\ editButton_disabled (dom (select_image (Some f) w)) = false
  /\ editButton_click api (select_image (Some f) w)
     = (Normal tt,
        mkWorld (session (select_image (Some f) w))
                (dom (select_image (Some f) w))
                (effects (select_image (Some f) w) ++ [Alert msg_no_image])).
Proof.
  intros Hf Hm Hp Hempty.
  destruct (data_url_pieces mime payload Hm Hp) as (H2 & Hpay & Hmime).
  assert (Hsel : select_image (Some f) w
                 = image_loaded (data_url mime payload) payload mime w).
  { rewrite select_image_settles. unfold reader_settle. rewrite Hf. simpl onload.
    rewrite (@run_task_normal _ _ _ (@reader_onload_stores _ _ w H2 Hmime)).
    rewrite Hpay. reflexivity. }
  rewrite Hsel. split; [reflexivity|]. split; [reflexivity|].
  split; [reflexivity|].
  apply editButton_click_no_image. simpl.
  destruct Hempty as [-> | ->]; auto.
Qed.

Lemma empty_piece_is_stored_but_unusable_witness :
  imageBase64
    (session (select_image (Some (mkFile (Some (data_url (js "image/png") []))))
                           session_start)) = Some []
  /\ imageMimeType
       (session (select_image (Some (mkFile (Some (data_url (js "image/png") []))))
                              session_start)) = Some (js "image/png")
  /\ editButton_disabled
       (dom (select_image (Some (mkFile (Some (data_url (js "image/png") []))))
                          session_start)) = false
  /\ editButton_click
       (api_returning (reply_with two_images))
       (select_image (Some (mkFile (Some (data_url (js "image/png") []))))
                     session_start)
     = (Normal tt,
        mkWorld
          (session (select_image
                      (Some (mkFile (Some (data_url (js "image/png") []))))
                      session_start))
          (dom (select_image
                  (Some (mkFile (Some (data_url (js "image/png") []))))
                  session_start))
          (effects (select_image
                      (Some (mkFile (Some (data_url (js "image/png") []))))
                      session_start)
             ++ [Alert msg_no_image])).
Proof.
  apply (@empty_piece_is_stored_but_unusable
           (mkFile (Some (data_url (js "image/png") [])))
           (js "image/png") [] (api_returning (reply_with two_images))
           session_start).
  - reflexivity.
  - vm_compute. reflexivity.
  - reflexivity.
  - right. reflexivity.
Defined.

(** ** Further facts: whole sessions *)

Lemma page_load_run (d : Dom) :
  page_load d
  = mkWorld (mkSession None None None)
            (mkDom (originalImage_src d) (originalImage_display d)
                   (uploadPlaceholder_hidden d) default_prompt
                   (editButton_disabled d) (resultContainer d)
                   (loader_hidden d) (downloadButton_hidden d)
                   (body_appended d))
            [].
Proof. reflexivity. Qed.

(** ** Further properties: whole sessions *)

(** X11. On a page whose markup starts with the download control hidden,
    after any sequence of events - reads and replies settling in any
    order, submissions overlapping or not - the download control is on
    show only when a result is stored: a click on a visible download
    control always finds something to save. *)
Theorem download_control_needs_result (d : Dom) (evs : list Event) :
  downloadButton_hidden d = true ->
  downloadButton_hidden (dom (world (run_events evs (start d)))) = false ->
  exists b,
    editedImageSrc (session (world (run_events evs (start d))))
    = Some (imageUrl_of b).
Proof.
  intros Hd.
  assert (H0 : readers_ok (start d) /\ download_needs_result (world (start d))).
  { split; [constructor|]. unfold download_needs_result, start. simpl world.
    rewrite page_load_run. simpl. congruence. }
  revert H0. generalize (start d). clear Hd.
  unfold run_events.
  induction evs as [|ev evs IH]; intros p [Hok Hinv]; [exact Hinv|].
  simpl. apply IH.
  destruct (@step_moves ev p Hok) as (Hok' & _ & Hres).
  split; [exact Hok'|]. unfold download_needs_result in *.
  intros Hshown.
  destruct Hres as [[He [Hsame | Hhid]] | [[_ Hhid] | (b & He & _)]].
  - rewrite He. apply Hinv. rewrite <- Hsame. exact Hshown.
  - congruence.
  - congruence.
  - exists b. exact He.
Qed.

Lemma download_control_needs_result_witness :
  exists b,
    editedImageSrc
      (session (world (run_events (firstn 7 overlapped_edits) (start blank_page))))
    = Some (imageUrl_of b).
Proof.
  apply (@download_control_needs_result blank_page (firstn 7 overlapped_edits));
    vm_compute; reflexivity.
Defined.

(** X12. In every reachable state a stored result is a data URL built by
    the response loop from some inline-binary part: it starts with the
    data: scheme and is never the empty string. *)
Theorem stored_result_is_a_data_url (w : World) (u : jsstring) :
  reachable w ->
  editedImageSrc (session w) = Some u ->
  (exists b, u = imageUrl_of b)
  /\ (exists rest, u = js "data:" ++ rest)
  /\ u <> [].
Proof.
  intros Hw Hu.
  destruct (reachable_result_is_data_url Hw) as [Hn | (b & Hb)];
    [congruence|].
  assert (E : u = imageUrl_of b) by congruence. subst u.
  split; [exists b; reflexivity|]. split.
  - eexists. reflexivity.
  - apply imageUrl_of_nonempty.
Qed.

Lemma stored_result_is_a_data_url_witness :
  (exists b, imageUrl_of (png "BBBB") = imageUrl_of b)
  /\ (exists rest, imageUrl_of (png "BBBB") = js "data:" ++ rest)
  /\ imageUrl_of (png "BBBB") <> [].
Proof.
  apply (@stored_result_is_a_data_url session_with_result
           (imageUrl_of (png "BBBB"))).
  - unfold session_with_result, session_with_photo, session_start.
    apply reachable_step, reachable_step, reachable_load.
  - vm_compute. reflexivity.
Defined.

(** X13. Loading the page, selecting a file whose data URL has a
    non-empty plain MIME type and a non-empty comma-free payload, clicking
    edit with the pre-seeded prompt untouched and then clicking download
    has exactly two effects when the reply carries an image: one request
    with that payload, that MIME type and the default prompt, and one
    save of the last returned image under imagen-editada.png. *)
Theorem upload_edit_download
        (d : Dom) (f : File) (mime payload : jsstring) (api : Api)
        (r : GenerateContentResponse) (ps : list Part) (u : jsstring) :
  readAsDataURL_result f = Some (data_url mime payload) ->
  plain mime = true ->
  free_of comma payload = true ->
  truthy (Some mime) = true ->
  truthy (Some payload) = true ->
  construct api = None ->
  generateContent api (request_of default_prompt payload mime) = inr r ->
  first_parts r = Some ps ->
  last_image_url ps = Some u ->
  effects (run_actions [SelectImage (Some f); ClickEdit api; ClickDownload]
                       (page_load d))
  = [ApiRequest (request_of default_prompt payload mime);
     AnchorClick (mkAnchor u (js "imagen-editada.png"))].
Proof.
  intros Hf Hm Hp Hmt Hpt Hc Hg Hps Hu.
  destruct (data_url_pieces mime payload Hm Hp) as (H2 & Hpay & Hmime).
  unfold run_actions. cbn [fold_left perform].
  assert (Hsel : select_image (Some f) (page_load d)
                 = image_loaded (data_url mime payload) payload mime (page_load d)).
  { rewrite select_image_settles. unfold reader_settle. rewrite Hf. simpl onload.
    rewrite (@run_task_normal _ _ _
               (@reader_onload_stores _ _ (page_load d) H2 Hmime)).
    rewrite Hpay. reflexivity. }
  rewrite Hsel, page_load_run.
  set (w1 := image_loaded _ _ _ _).
  assert (Hs : submittable w1 payload mime).
  { unfold submittable. split_all; try assumption; vm_compute; reflexivity. }
  destruct (first_parts_some r Hps) as (c & cs & ct & Hr & Hct & Hparts).
  destruct (callGemini_parts api (promptInput_value (dom w1)) payload mime w1
              Hc Hg Hr Hct Hparts) as (w2 & Hrun & _ & Hfx & Hcase).
  assert (Himg : existsb is_image_part ps = true).
  { rewrite has_image_last, Hu. reflexivity. }
  rewrite Himg in Hcase. simpl in Hcase. destruct Hcase as (_ & He & _).
  rewrite Hu in He.
  rewrite <- (submittable_click api Hs) in Hrun.
  rewrite (@run_task_normal _ _ _ Hrun).
  destruct (last_image_url_shape ps Hu) as (p & b & _ & _ & Hub).
  assert (Hne : u <> []) by (rewrite Hub; apply imageUrl_of_nonempty).
  rewrite (@run_task_normal _ _ _ (downloadButton_click_saves w2 He Hne)).
  simpl. rewrite Hfx. reflexivity.
Qed.

Lemma upload_edit_download_witness :
  effects (run_actions
             [SelectImage (Some photo);
              ClickEdit (api_returning (reply_with two_images));
              ClickDownload]
             (page_load blank_page))
  = [ApiRequest (request_of default_prompt (js "/9j/4AAQ") (js "image/jpeg"));
     AnchorClick (mkAnchor (imageUrl_of (png "BBBB")) (js "imagen-editada.png"))].
Proof.
  apply (@upload_edit_download blank_page photo (js "image/jpeg") (js "/9j/4AAQ")
           (api_returning (reply_with two_images)) (reply_with two_images)
           two_images (imageUrl_of (png "BBBB")));
    vm_compute; reflexivity.
Defined.

(** ** Further properties: malformed reads, examples, failed edits *)

Lemma split_length (sep : N) (s : jsstring) :
  List.length (split sep s) = S (count_occ N.eq_dec s sep).
Proof.
  induction s as [|c s IH]; simpl; [reflexivity|].
  destruct (N.eqb_spec c sep) as [-> | Hne].
  - destruct (N.eq_dec sep sep) as [_|H]; [|congruence]. simpl. rewrite IH.
    reflexivity.
  - destruct (N.eq_dec c sep) as [H|_]; [congruence|].
    destruct (split sep s) as [|x xs]; [discriminate|]. exact IH.
Qed.

(** X14. A selection whose data URL does not hold exactly one comma
    leaves the session state and the page exactly as they were: [onload]
    throws before it assigns anything, and the error ends as an uncaught
    exception. *)
Theorem selecting_url_without_one_comma_changes_nothing
        (f : File) (result : jsstring) (w : World) :
  readAsDataURL_result f = Some result ->
  count_occ N.eq_dec result comma <> 1 ->
  select_image (Some f) w
  = mkWorld (session w) (dom w)
            (effects w ++ [Uncaught (Error (js "Invalid data URL format"))]).
Proof.
  intros Hf Hn. apply (@select_image_malformed f result w Hf).
  unfold splits_in_two. rewrite split_length.
  destruct (count_occ N.eq_dec result comma) as [|[|n]];
    [reflexivity | congruence | reflexivity].
Qed.

Lemma selecting_url_without_one_comma_changes_nothing_witness :
  select_image (Some (mkFile (Some (js "data:image/png;base64,AA,BB"))))
               session_with_photo
  = mkWorld (session session_with_photo) (dom session_with_photo)
            (effects session_with_photo
               ++ [Uncaught (Error (js "Invalid data URL format"))]).
Proof.
  apply (@selecting_url_without_one_comma_changes_nothing
           (mkFile (Some (js "data:image/png;base64,AA,BB")))
           (js "data:image/png;base64,AA,BB") session_with_photo).
  - reflexivity.
  - vm_compute. discriminate.
Defined.

(** X15. Choosing an example that is not all whitespace and then clicking
    edit, with an image stored and a client that can be built, sends one
    request whose text is that example as the prompt field reads it back
    (CR LF and lone CR turned into LF), whatever the prompt held
    before. *)
Theorem chosen_example_is_submitted
        (api : Api) (w : World) (base64Data mimeType selectedValue : jsstring) :
  imageBase64 (session w) = Some base64Data ->
  truthy (Some base64Data) = true ->
  imageMimeType (session w) = Some mimeType ->
  truthy (Some mimeType) = true ->
  forallb is_whitespace selectedValue = false ->
  construct api = None ->
  api_requests
    (effects (run_actions [ChooseExample selectedValue; ClickEdit api] w))
  = api_requests (effects w)
      ++ [request_of (normalize_newlines selectedValue) base64Data mimeType].
Proof.
  intros Hb Hbt Hm Hmt Hv Hc.
  unfold run_actions. cbn [fold_left perform].
  rewrite (@run_task_normal _ _ _ (promptExamples_change_run selectedValue w)).
  destruct selectedValue as [|c v]; [discriminate|].
  set (w1 := mkWorld _ _ _).
  assert (Hs : submittable w1 base64Data mimeType).
  { unfold submittable. split_all; try assumption.
    unfold w1. cbn [dom promptInput_value].
    rewrite whitespace_normalized. exact Hv. }
  destruct (callGemini_effects api (promptInput_value (dom w1))
              base64Data mimeType w1 Hc) as (w' & es & Hrun & Hfx & Hreq & _).
  rewrite <- (submittable_click api Hs) in Hrun.
  rewrite (@run_task_normal _ _ _ Hrun), Hfx.
  rewrite !api_requests_app, Hreq. simpl api_requests.
  rewrite app_nil_r. reflexivity.
Qed.

Lemma chosen_example_is_submitted_witness :
  api_requests
    (effects (run_actions
                [ChooseExample (js "convierte la foto a blanco y negro");
                 ClickEdit (api_rejecting (ApiError (js "503")))]
                session_with_photo))
  = api_requests (effects session_with_photo)
      ++ [request_of
            (normalize_newlines (js "convierte la foto a blanco y negro"))
            (js "/9j/4AAQ") (js "image/jpeg")].
Proof.
  apply (@chosen_example_is_submitted
           (api_rejecting (ApiError (js "503"))) session_with_photo
           (js "/9j/4AAQ") (js "image/jpeg")
           (js "convierte la foto a blanco y negro"));
    vm_compute; reflexivity.
Defined.

Lemma submittable_click_until_await
      (api : Api) (w : World) (base64Data mimeType : jsstring) :
  submittable w base64Data mimeType ->
  editButton_click_until_await api w
  = callGemini_until_await api (promptInput_value (dom w)) base64Data mimeType w.
Proof.
  intros (Hb & Hbt & Hm & Hmt & Hp).
  assert (Ht : truthy (Some (trim (promptInput_value (dom w)))) = true).
  { destruct (trim (promptInput_value (dom w))) eqn:E; [|reflexivity].
    apply trim_blank in E. congruence. }
  destruct_world w. subst img mime.
  unfold editButton_click_until_await. unfold_js.
  destruct base64Data as [|c b]; [discriminate|].
  destruct mimeType as [|c' m]; [discriminate|].
  rewrite Ht. reflexivity.
Qed.

(** X16. A valid click on the edit control discards whatever result was
    stored, before its request is answered: when the click returns, with
    the one request sent and the call waiting for the reply, nothing is
    stored, the download control is hidden, the edit control is disabled
    and the busy indicator is on show; a click on the download control at
    that point only raises the nothing-to-download alert. *)
Theorem submission_discards_result_at_once
        (api : Api) (w : World) (base64Data mimeType : jsstring) :
  submittable w base64Data mimeType ->
  construct api = None ->
  exists w1,
    editButton_click_until_await api w
    = (Normal
         (Some (mkSuspended
                  (promptInput_value (dom w))
                  (generateContent api
                     (request_of (promptInput_value (dom w))
                                 base64Data mimeType)))),
       w1)
    /\ effects w1
       = effects w
           ++ [ApiRequest
                 (request_of (promptInput_value (dom w)) base64Data mimeType)]
    /\ editedImageSrc (session w1) = None
    /\ downloadButton_hidden (dom w1) = true
    /\ editButton_disabled (dom w1) = true
    /\ loader_hidden (dom w1) = false
    /\ downloadButton_click w1
       = (Normal tt,
          mkWorld (session w1) (dom w1) (effects w1 ++ [Alert msg_no_result])).
Proof.
  intros Hs Hc. rewrite (submittable_click_until_await api Hs).
  destruct (until_await_sent api (promptInput_value (dom w))
              base64Data mimeType w Hc)
    as (w1 & Hrun & He & Hd & Hl & Hbtn & _ & _ & _ & _ & Hfx).
  exists w1. split_all; auto.
  apply downloadButton_click_empty. rewrite He. reflexivity.
Qed.

Lemma submission_discards_result_at_once_witness :
  exists w1,
    editButton_click_until_await (api_rejecting (ApiError (js "503")))
                                 session_with_result
    = (Normal
         (Some (mkSuspended
                  (promptInput_value (dom session_with_result))
                  (generateContent
                     (api_rejecting (ApiError (js "503")))
                     (request_of (promptInput_value (dom session_with_result))
                                 (js "/9j/4AAQ") (js "image/jpeg"))))),
       w1)
    /\ effects w1
       = effects session_with_result
           ++ [ApiRequest
                 (request_of (promptInput_value (dom session_with_result))
                             (js "/9j/4AAQ") (js "image/jpeg"))]
    /\ editedImageSrc (session w1) = None
    /\ downloadButton_hidden (dom w1) = true
    /\ editButton_disabled (dom w1) = true
    /\ loader_hidden (dom w1) = false
    /\ downloadButton_click w1
       = (Normal tt,
          mkWorld (session w1) (dom w1) (effects w1 ++ [Alert msg_no_result])).
Proof.
  apply (@submission_discards_result_at_once
           (api_rejecting (ApiError (js "503"))) session_with_result
           (js "/9j/4AAQ") (js "image/jpeg")).
  - unfold submittable. split_all; vm_compute; reflexivity.
  - reflexivity.
Defined.
